(** * clustering-outliers-service: ticketing, staging and dispatch

    A shallow embedding of [clustering_outliers/utils.py] and of the
    job-ticketing part of [clustering_outliers/app.py], followed by the
    properties of the natural-language specification that were checked
    against it.

    Python values are modelled as the code has them: paths are strings
    and are manipulated with (a model of) [posixpath]; the file system is
    an association list from normalised absolute paths to nodes, in the
    order [os.scandir] lists them; the [tickets] table is a list of rows;
    the executor is a list of submitted jobs and a list of finished
    futures.  Stateful code lives in a state-and-exception monad: a raised
    Python exception keeps the state reached so far. *)

From Stdlib Require Import String Ascii List ZArith Lia Bool Arith Permutation.
Import ListNotations.
Open Scope string_scope.

(** ** Python exceptions and the state-and-exception monad *)

Inductive exn : Type :=
| FileNotFoundError (msg : string)
| NotADirectoryError
| IsADirectoryError
| TypeError (msg : string)
| ValueError (msg : string)
| RecursionError
| Exception (msg : string)
| HTTPException (code : Z) (description : string).

(** [str(e)] *)
Definition exn_str (e : exn) : string :=
  match e with
  | FileNotFoundError m => m
  | NotADirectoryError => "Not a directory"
  | IsADirectoryError => "Is a directory"
  | TypeError m => m
  | ValueError m => m
  | RecursionError => "maximum recursion depth exceeded"
  | Exception m => m
  | HTTPException _ d => d
  end.

Definition is_FileNotFoundError (e : exn) : bool :=
  match e with FileNotFoundError _ => true | _ => false end.

Inductive outcome (A : Type) : Type :=
| Ok (a : A)
| Raise (e : exn).
Arguments Ok {A} a.
Arguments Raise {A} e.

Definition is_ok {A} (r : outcome A) : bool :=
  match r with Ok _ => true | Raise _ => false end.

(** A computation over a state [S] that returns or raises. *)
Definition Py (S A : Type) : Type := S -> outcome A * S.

Definition ret {S A} (a : A) : Py S A := fun s => (Ok a, s).
Definition raise {S A} (e : exn) : Py S A := fun s => (Raise e, s).
Definition bind {S A B} (m : Py S A) (k : A -> Py S B) : Py S B :=
  fun s => match m s with
           | (Ok a, s') => k a s'
           | (Raise e, s') => (Raise e, s')
           end.
Definition get {S} : Py S S := fun s => (Ok s, s).
Definition put {S} (s : S) : Py S unit := fun _ => (Ok tt, s).
Definition gets {S A} (f : S -> A) : Py S A := fun s => (Ok (f s), s).
Definition modify {S} (f : S -> S) : Py S unit := fun s => (Ok tt, f s).
Definition lift_outcome {S A} (r : outcome A) : Py S A := fun s => (r, s).

(** [try: m except <sel>: h] *)
Definition try_except {S A} (m : Py S A) (sel : exn -> bool) (h : exn -> Py S A)
  : Py S A :=
  fun s => match m s with
           | (Raise e, s') => if sel e then h e s' else (Raise e, s')
           | r => r
           end.

(** Run [m] and hand its outcome to the caller, as the body of a [try]
    whose handlers decide what to return. *)
Definition attempt {S A} (m : Py S A) : Py S (outcome A) :=
  fun s => (Ok (fst (m s)), snd (m s)).

Declare Scope py_scope.
Delimit Scope py_scope with py.
Notation "x <- m ;; k" := (bind m (fun x => k))
  (at level 61, m at next level, right associativity) : py_scope.
Notation "m ;;; k" := (bind m (fun _ => k))
  (at level 61, right associativity) : py_scope.
Open Scope py_scope.

(** [for x in xs: body(x)] *)
Fixpoint for_each {S A} (xs : list A) (body : A -> Py S unit) : Py S unit :=
  match xs with
  | [] => ret tt
  | x :: xs' => body x ;;; for_each xs' body
  end.

(** ** [str] helpers *)

Module pystr.

Definition slash : ascii := "/"%char.

(** [s.startswith(pre)] *)
Definition startswith (s pre : string) : bool := String.prefix pre s.

(** [s.endswith('/')] *)
Fixpoint endswith_slash (s : string) : bool :=
  match s with
  | EmptyString => false
  | String c EmptyString => Ascii.eqb c slash
  | String _ s' => endswith_slash s'
  end.

(** ['/' in s] *)
Fixpoint has_slash (s : string) : bool :=
  match s with
  | EmptyString => false
  | String c s' => Ascii.eqb c slash || has_slash s'
  end.

(** [s.split('/')] *)
Fixpoint split (s : string) : list string :=
  match s with
  | EmptyString => [""]
  | String c s' =>
      if Ascii.eqb c slash then "" :: split s'
      else match split s' with
           | w :: ws => String c w :: ws
           | [] => [String c ""]
           end
  end.

(** ['/'.join(comps)] *)
Fixpoint join (comps : list string) : string :=
  match comps with
  | [] => ""
  | c :: cs => match cs with
               | [] => c
               | _ => c ++ "/" ++ join cs
               end
  end.

(** ['/' * n] *)
Fixpoint slashes (n : nat) : string :=
  match n with
  | O => ""
  | S n' => String slash (slashes n')
  end.

(** [s == '/' * len(s)] *)
Fixpoint all_slashes (s : string) : bool :=
  match s with
  | EmptyString => true
  | String c s' => Ascii.eqb c slash && all_slashes s'
  end.

(** [s.rstrip('/')] *)
Fixpoint rstrip_slash (s : string) : string :=
  match s with
  | EmptyString => ""
  | String c s' => if all_slashes s then "" else String c (rstrip_slash s')
  end.

(** [s[:s.rfind('/') + 1]] *)
Fixpoint upto_last_slash (s : string) : string :=
  match s with
  | EmptyString => ""
  | String c s' => if has_slash s then String c (upto_last_slash s') else ""
  end.

End pystr.

(** ** [posixpath] *)

Module posixpath.
Import pystr.

Definition isabs (s : string) : bool := startswith s "/".

(** [os.path.join(a, b)] *)
Definition join (a b : string) : string :=
  if startswith b "/" then b
  else if (a =? "") || endswith_slash a then a ++ b
  else a ++ "/" ++ b.

(** [os.path.join(a, b, c)] *)
Definition join3 (a b c : string) : string := join (join a b) c.

(** [os.path.dirname(p)] *)
Definition dirname (p : string) : string :=
  let head := upto_last_slash p in
  if negb (head =? "") && negb (all_slashes head) then rstrip_slash head
  else head.

(** The number of leading slashes [normpath] keeps: POSIX allows one or
    two, and treats three or more as one. *)
Definition initial_slashes (path : string) : nat :=
  if startswith path "/" then
    if startswith path "//" && negb (startswith path "///") then 2 else 1
  else 0.

Definition last_is_dotdot (new_comps : list string) : bool :=
  match rev new_comps with
  | c :: _ => c =? ".."
  | [] => false
  end.

(** One iteration of the loop of [normpath] over the components. *)
Definition norm_step (rooted : bool) (new_comps : list string) (comp : string)
  : list string :=
  if (comp =? "") || (comp =? ".") then new_comps
  else if negb (comp =? "..")
          || (negb rooted && match new_comps with [] => true | _ => false end)
          || last_is_dotdot new_comps
       then new_comps ++ [comp]
       else removelast new_comps.

(** [new_comps] at the end of the loop of [normpath]. *)
Definition norm_comps (path : string) : list string :=
  fold_left (norm_step (Nat.ltb 0 (initial_slashes path))) (split path) [].

(** [os.path.normpath(path)] *)
Definition normpath (path : string) : string :=
  if path =? "" then "."
  else
    let p := slashes (initial_slashes path) ++ pystr.join (norm_comps path) in
    if p =? "" then "." else p.

(** The argument [abspath] hands to [normpath]; [cwd] is [os.getcwd()]. *)
Definition absolute (cwd path : string) : string :=
  if isabs path then path else join cwd path.

(** [os.path.abspath(path)] *)
Definition abspath (cwd path : string) : string :=
  normpath (absolute cwd path).

(** [os.path.commonprefix([a, b])]: the longest common leading string,
    character by character. *)
Fixpoint commonprefix (a b : string) : string :=
  match a, b with
  | String c a', String d b' =>
      if Ascii.eqb c d then String c (commonprefix a' b') else ""
  | _, _ => ""
  end.

End posixpath.

(** ** The file system

    Nodes are keyed by the components of their normalised absolute path
    (no symbolic links, so the lexical normalisation of [normpath] is the
    kernel's resolution).  The list order is the order in which
    [os.scandir] yields the entries of a directory.  The root [[]] is
    always a directory. *)

Module fsys.
Import pystr posixpath.

Record TarInfo : Type := { tar_name : string; tar_isdir : bool; tar_size : Z }.
Record ZipInfo : Type := { zip_filename : string; zip_file_size : Z }.

(** What the archive readers see in a regular file: the members
    [tarfile] reads from it, if it has a tar signature, and the members
    [zipfile] reads from it, if it has a zip signature. *)
Record file : Type :=
  { as_tar : option (list TarInfo);
    as_zip : option (list ZipInfo);
    st_size : Z }.

Inductive node : Type := Dir | File (f : file).

Definition key : Type := list string.

Record FS : Type := { cwd : string; nodes : list (key * node) }.

Fixpoint key_eqb (k k' : key) : bool :=
  match k, k' with
  | [], [] => true
  | c :: k1, c' :: k1' => (c =? c') && key_eqb k1 k1'
  | _, _ => false
  end.

Fixpoint assoc (k : key) (l : list (key * node)) : option node :=
  match l with
  | [] => None
  | (k', n) :: l' => if key_eqb k k' then Some n else assoc k l'
  end.

Definition lookup (fs : FS) (k : key) : option node :=
  match k with
  | [] => Some Dir
  | _ => assoc k (nodes fs)
  end.

(** The node a path names: the empty path names nothing ([ENOENT]). *)
Definition locate (fs : FS) (p : string) : option key :=
  if p =? "" then None else Some (norm_comps (absolute (cwd fs) p)).

Definition stat_node (fs : FS) (p : string) : option node :=
  match locate fs p with
  | Some k => lookup fs k
  | None => None
  end.

(** [os.path.isdir], [os.path.isfile], [os.path.exists] *)
Definition isdir (fs : FS) (p : string) : bool :=
  match stat_node fs p with Some Dir => true | _ => false end.
Definition isfile (fs : FS) (p : string) : bool :=
  match stat_node fs p with Some (File _) => true | _ => false end.
Definition exists_ (fs : FS) (p : string) : bool :=
  match stat_node fs p with Some _ => true | None => false end.

(** [os.stat(p).st_size] *)
Definition stat_size (p : string) : Py FS Z :=
  fun fs => match stat_node fs p with
            | Some (File f) => (Ok (st_size f), fs)
            | Some Dir => (Ok 4096%Z, fs)
            | None => (Raise (FileNotFoundError p), fs)
            end.

Record DirEntry : Type := { name : string; is_dir : bool }.

(** [Some name] when [k' = k ++ [name]]. *)
Fixpoint child_name (k k' : key) : option string :=
  match k, k' with
  | [], [c] => Some c
  | c :: k1, c' :: k1' => if c =? c' then child_name k1 k1' else None
  | _, _ => None
  end.

Definition entry_of (k : key) (kn : key * node) : list DirEntry :=
  match child_name k (fst kn) with
  | Some c => [{| name := c;
                  is_dir := match snd kn with Dir => true | File _ => false end |}]
  | None => []
  end.

(** [os.scandir(p)] *)
Definition scandir (p : string) : Py FS (list DirEntry) :=
  fun fs => match locate fs p with
            | None => (Raise (FileNotFoundError p), fs)
            | Some k =>
                match lookup fs k with
                | None => (Raise (FileNotFoundError p), fs)
                | Some (File _) => (Raise NotADirectoryError, fs)
                | Some Dir => (Ok (flat_map (entry_of k) (nodes fs)), fs)
                end
            end.

(** *** Writing *)

Fixpoint set_node (k : key) (n : node) (l : list (key * node))
  : list (key * node) :=
  match l with
  | [] => [(k, n)]
  | (k', n') :: l' =>
      if key_eqb k k' then (k, n) :: l' else (k', n') :: set_node k n l'
  end.

(** The non-empty prefixes of [k], shortest first, [k] included. *)
Fixpoint prefixes (k : key) : list key :=
  match k with
  | [] => []
  | c :: k' => [c] :: map (cons c) (prefixes k')
  end.

Definition mkdir1 (l : list (key * node)) (k : key) : list (key * node) :=
  match assoc k l with
  | Some _ => l
  | None => l ++ [(k, Dir)]
  end.

(** Every missing ancestor of [k], and [k] itself, becomes a directory. *)
Definition makedirs_key (k : key) (fs : FS) : FS :=
  {| cwd := cwd fs; nodes := fold_left mkdir1 (prefixes k) (nodes fs) |}.

(** No proper ancestor of [k] is a regular file. *)
Definition ancestors_ok (k : key) (fs : FS) : bool :=
  forallb (fun a => match lookup fs a with Some (File _) => false | _ => true end)
    (prefixes (removelast k)).

(** Create the directory at [k] and its missing ancestors; whatever is
    already at [k] is left alone. *)
Definition make_dir (k : key) : Py FS unit :=
  fun fs =>
    if negb (ancestors_ok k fs) then (Raise NotADirectoryError, fs)
    else match lookup fs k with
         | Some _ => (Ok tt, fs)
         | None => (Ok tt, makedirs_key k fs)
         end.

(** Create or truncate the regular file at [k], creating its missing
    ancestors: [open(k, 'wb')] after [os.makedirs(dirname(k))]. *)
Definition write_file (k : key) (f : file) : Py FS unit :=
  fun fs =>
    if negb (ancestors_ok k fs) then (Raise NotADirectoryError, fs)
    else match lookup fs k with
         | Some Dir => (Raise IsADirectoryError, fs)
         | _ =>
             let fs1 := makedirs_key (removelast k) fs in
             (Ok tt, {| cwd := cwd fs1; nodes := set_node k (File f) (nodes fs1) |})
         end.

Definition plain (size : Z) : file :=
  {| as_tar := None; as_zip := None; st_size := size |}.

(** *** [tarfile] and [zipfile] *)

(** [tarfile.is_tarfile(p)]: opening a missing file raises. *)
Definition is_tarfile (p : string) : Py FS bool :=
  fun fs => match stat_node fs p with
            | None => (Raise (FileNotFoundError p), fs)
            | Some Dir => (Raise IsADirectoryError, fs)
            | Some (File f) =>
                (Ok match as_tar f with Some _ => true | None => false end, fs)
            end.

(** [zipfile.is_zipfile(p)]: an [OSError] on opening gives [False]. *)
Definition is_zipfile (p : string) : Py FS bool :=
  fun fs => match stat_node fs p with
            | Some (File f) =>
                (Ok match as_zip f with Some _ => true | None => false end, fs)
            | _ => (Ok false, fs)
            end.

(** [tarfile.open(p, 'r')], as the list [getmembers()] gives. *)
Definition tarfile_open (p : string) : Py FS (list TarInfo) :=
  fun fs => match stat_node fs p with
            | Some (File f) =>
                match as_tar f with
                | Some ms => (Ok ms, fs)
                | None => (Raise (Exception "file could not be opened successfully"), fs)
                end
            | Some Dir => (Raise IsADirectoryError, fs)
            | None => (Raise (FileNotFoundError p), fs)
            end.

(** [zipfile.ZipFile(p, 'r')], as the list [infolist()] gives. *)
Definition zipfile_open (p : string) : Py FS (list ZipInfo) :=
  fun fs => match stat_node fs p with
            | Some (File f) =>
                match as_zip f with
                | Some ms => (Ok ms, fs)
                | None => (Raise (Exception "File is not a zip file"), fs)
                end
            | Some Dir => (Raise IsADirectoryError, fs)
            | None => (Raise (FileNotFoundError p), fs)
            end.

(** Where [TarFile.extract] puts a member: [os.path.join(path, name)],
    unchecked. *)
Definition tar_target (fs : FS) (path : string) (m : TarInfo) : key :=
  norm_comps (absolute (cwd fs) (join path (tar_name m))).

Definition tar_extract_member (path : string) (m : TarInfo) : Py FS unit :=
  fs <- get ;;
  let k := tar_target fs path m in
  if tar_isdir m then make_dir k else write_file k (plain (tar_size m)).

(** [tar.extractall(path, members)] with [members=None]: every member,
    in order; the first [OSError] stops the extraction. *)
Definition tar_extractall (tar : list TarInfo) (path : string) : Py FS unit :=
  for_each tar (tar_extract_member path).

(** [ZipFile._extract_member]: the member name loses its empty, [.] and
    [..] components before it is joined to the target directory. *)
Definition invalid_path_part (x : string) : bool :=
  (x =? "") || (x =? ".") || (x =? "..").

Definition zip_arcname (m : ZipInfo) : string :=
  pystr.join (filter (fun x => negb (invalid_path_part x)) (split (zip_filename m))).

Definition zip_target (fs : FS) (path : string) (m : ZipInfo) : key :=
  norm_comps (absolute (cwd fs) (normpath (join path (zip_arcname m)))).

Definition zip_extract_member (path : string) (m : ZipInfo) : Py FS unit :=
  fs <- get ;;
  let k := zip_target fs path m in
  if endswith_slash (zip_filename m) then make_dir k
  else write_file k (plain (zip_file_size m)).

(** [handle.extractall(path)] *)
Definition zip_extractall (zip : list ZipInfo) (path : string) : Py FS unit :=
  for_each zip (zip_extract_member path).

(** The longest key of the file system. *)
Definition max_depth (fs : FS) : nat :=
  fold_right (fun kn d => Nat.max (List.length (fst kn)) d) 0 (nodes fs).

End fsys.

(** ** [utils.py] *)

Module utils.
Import pystr posixpath fsys.

(** [flask.abort(code, description)] *)
Definition abort {S A} (code : Z) (description : string) : Py S A :=
  raise (HTTPException code description).

Definition get_subdirectories (folder_path : string) : Py FS (list string) :=
  entries <- scandir folder_path ;;
  ret (map name
         (filter (fun entry => negb (startswith (name entry) ".") && is_dir entry)
            entries)).

(** The recursion of [get_extracted_path], [fuel] frames deep: running
    out of frames is Python's [RecursionError]. *)
Fixpoint get_extracted_path_fuel (fuel : nat) (folder_path : string)
  : Py FS string :=
  match fuel with
  | O => raise RecursionError
  | S fuel' =>
      let extracted_path := folder_path in
      subdirectories <- get_subdirectories folder_path ;;
      match subdirectories with
      | [] => ret extracted_path
      | d :: _ => get_extracted_path_fuel fuel' (join extracted_path d)
      end
  end.

(** [get_extracted_path], with as many frames as the file system is
    deep (see [get_extracted_path_total]). *)
Definition get_extracted_path (folder_path : string) : Py FS string :=
  fs <- get ;;
  get_extracted_path_fuel (S (max_depth fs)) folder_path.

Definition is_within_directory (cwd directory target : string) : bool :=
  let abs_directory := abspath cwd directory in
  let abs_target := abspath cwd target in
  let prefix := commonprefix abs_directory abs_target in
  prefix =? abs_directory.

Definition safe_extract (tar : list TarInfo) (path : string) : Py FS unit :=
  fs <- get ;;
  for_each tar (fun member =>
    let member_path := join path (tar_name member) in
    if negb (is_within_directory (cwd fs) path member_path)
    then raise (Exception "Attempted Path Traversal in Tar File")
    else ret tt) ;;;
  tar_extractall tar path.

Definition uncompress_file (src_file : string) : Py FS string :=
  try_except
    (d <- gets (fun fs => isdir fs src_file) ;;
     if negb d then
       let src_path := dirname src_file in
       t <- is_tarfile src_file ;;
       if t then
         handle <- tarfile_open src_file ;;
         safe_extract handle src_path ;;;
         extracted_path <- get_extracted_path src_path ;;
         ret extracted_path
       else
         z <- is_zipfile src_file ;;
         if z then
           handle <- zipfile_open src_file ;;
           zip_extractall handle src_path ;;;
           extracted_path <- get_extracted_path src_path ;;
           ret extracted_path
         else ret src_file
     else ret src_file)
    is_FileNotFoundError
    (fun _ => abort 400 "File not found").

(** [mkdir]: [makedirs], with every [OSError] swallowed (the path
    exists already, or cannot be created). *)
Definition mkdir (folder_path : string) : Py FS unit :=
  fun fs => match locate fs folder_path with
            | Some k =>
                match lookup fs k with
                | Some _ => (Ok tt, fs)
                | None => (Ok tt, snd (make_dir k fs))
                end
            | None => (Ok tt, fs)
            end.

End utils.

(** ** The [tickets] table of [db] *)

Module db.

(** A row of the [tickets] table.  Times are microseconds since the
    epoch (UTC); [execution_time] is in milliseconds, the three decimals
    that [round(_, 3)] keeps of the seconds. *)
Record Row : Type :=
  { ticket : string;
    requested_time : Z;
    filesize : Z;
    status : Z;
    success : option Z;
    result : option string;
    execution_time : option Z;
    comment : option string }.

(** Modelled from the spec: the defaults of the columns that the
    [INSERT] of [enqueue] leaves out (the schema of [tickets] is not
    among the sources): [requested_time] is the timestamp of the
    creation, [status] is pending (0), and [success], [result],
    [execution_time] and [comment] are unknown (NULL). *)
Definition new_row (t : string) (size now : Z) : Row :=
  {| ticket := t; requested_time := now; filesize := size; status := 0%Z;
     success := None; result := None; execution_time := None;
     comment := None |}.

Definition update_row (filepath : option string) (ok : option Z) (et : Z)
  (cmt : option string) (t : string) (r : Row) : Row :=
  if ticket r =? t then
    {| ticket := ticket r; requested_time := requested_time r;
       filesize := filesize r; status := 1%Z; success := ok;
       result := filepath; execution_time := Some et; comment := cmt |}
  else r.

End db.

(** ** [app.py] *)

Module app.
Import pystr posixpath fsys utils.

Inductive JobType : Type :=
| KMEANS | DBSCAN | AGGLO | ISOFOREST | LOCALOUTLIER | SVM.

(** The Python values that travel through a job's result tuple. *)
Inductive pyval : Type :=
| VNone
| VInt (z : Z)
| VStr (s : string)
| VJson (doc : string)
| VJobType (j : JobType).

(** A submitted form, of any of the twelve form classes. *)
Record Form : Type :=
  { validate_on_submit : bool;
    errors : string;
    resource_data : string;      (* path forms: [form.resource.data] *)
    resource_filename : string;  (* file forms: [form.resource.data.filename] *)
    resource_content : file;     (* file forms: the uploaded file *)
    response_data : string;      (* [form.response.data] *)
    parameters : string }.       (* the algorithm's own fields *)

Record Job : Type :=
  { job_ticket : string;
    job_src_path : string;
    job_form : Form;
    job_type : JobType }.

(** A finished job: what [future.result()] returns or raises. *)
Record Future : Type :=
  { fut_job : Job;
    fut_outcome : outcome (list pyval) }.

Record World : Type :=
  { fs : FS;
    tickets : list db.Row;
    db_error : option string;    (* why the store cannot be reached, if so *)
    mkstemp_error : option exn;  (* what the OS answers to [mkstemp], if it fails *)
    jobs : list Job;             (* submitted to the executor, not started *)
    futures : list Future;       (* finished, completion callback not yet run *)
    clock : Z;
    uuids : nat }.               (* how many tickets were generated *)

Definition set_fs (x : FS) (w : World) : World :=
  {| fs := x; tickets := tickets w; db_error := db_error w;
     mkstemp_error := mkstemp_error w; jobs := jobs w; futures := futures w;
     clock := clock w; uuids := uuids w |}.
Definition set_tickets (x : list db.Row) (w : World) : World :=
  {| fs := fs w; tickets := x; db_error := db_error w;
     mkstemp_error := mkstemp_error w; jobs := jobs w; futures := futures w;
     clock := clock w; uuids := uuids w |}.
Definition set_jobs (x : list Job) (w : World) : World :=
  {| fs := fs w; tickets := tickets w; db_error := db_error w;
     mkstemp_error := mkstemp_error w; jobs := x; futures := futures w;
     clock := clock w; uuids := uuids w |}.
Definition set_futures (x : list Future) (w : World) : World :=
  {| fs := fs w; tickets := tickets w; db_error := db_error w;
     mkstemp_error := mkstemp_error w; jobs := jobs w; futures := x;
     clock := clock w; uuids := uuids w |}.
Definition set_clock (x : Z) (w : World) : World :=
  {| fs := fs w; tickets := tickets w; db_error := db_error w;
     mkstemp_error := mkstemp_error w; jobs := jobs w; futures := futures w;
     clock := x; uuids := uuids w |}.
Definition set_uuids (x : nat) (w : World) : World :=
  {| fs := fs w; tickets := tickets w; db_error := db_error w;
     mkstemp_error := mkstemp_error w; jobs := jobs w; futures := futures w;
     clock := clock w; uuids := x |}.

(** Run a file-system computation in the world. *)
Definition lift_fs {A} (m : Py FS A) : Py World A :=
  fun w => (fst (m (fs w)), set_fs (snd (m (fs w))) w).

(** *** Responses *)

Inductive jval : Type :=
| JNull
| JBool (b : bool)
| JNum (z : Z)
| JStr (s : string).

Inductive body : Type :=
| Text (s : string)
| Obj (fields : list (string * jval))
| Value (v : pyval)
| Attachment (file : string).

Record Response : Type := { resp_body : body; status_code : Z }.

Definition make_response {S} (b : body) (code : Z) : Py S Response :=
  ret {| resp_body := b; status_code := code |}.

(** The status Flask answers with: its own for an [HTTPException]
    raised by [abort], 500 for any other uncaught exception. *)
Definition flask_status (r : outcome Response) : Z :=
  match r with
  | Ok resp => status_code resp
  | Raise (HTTPException code _) => code
  | Raise _ => 500%Z
  end.

(** *** The store *)

(** [db.get_db()] *)
Definition get_db : Py World unit :=
  fun w => match db_error w with
           | Some m => (Raise (Exception m), w)
           | None => (Ok tt, w)
           end.

(** [dbc.execute('SELECT ... FROM tickets WHERE ticket = ?', [t]).fetchone()] *)
Definition fetchone (t : string) : Py World (option db.Row) :=
  gets (fun w => find (fun r => db.ticket r =? t) (tickets w)).

(** [row[column]]: subscripting [None] raises. *)
Definition subscript {A} (row : option db.Row) (column : db.Row -> A) : Py World A :=
  match row with
  | Some r => ret (column r)
  | None => raise (TypeError "'NoneType' object is not subscriptable")
  end.

(** [INSERT INTO tickets (ticket, filesize) VALUES(?, ?);] *)
Definition insert_ticket (t : string) (size : Z) : Py World unit :=
  modify (fun w => set_tickets (tickets w ++ [db.new_row t size (clock w)]) w).

(** [UPDATE tickets SET result=?, success=?, status=1, execution_time=?,
    comment=? WHERE ticket=?;] *)
Definition update_ticket (filepath : option string) (ok : option Z) (et : Z)
  (cmt : option string) (t : string) : Py World unit :=
  modify (fun w => set_tickets (map (db.update_row filepath ok et cmt t) (tickets w)) w).

(** *** Time *)

(** [n / d] rounded to the nearest integer, ties to even. *)
Definition round_half_even (n d : Z) : Z :=
  let q := (n / d)%Z in
  let r := (n mod d)%Z in
  if (2 * r <? d)%Z then q
  else if (d <? 2 * r)%Z then (q + 1)%Z
  else if Z.even q then q else (q + 1)%Z.

(** [round((now - time).total_seconds(), 3)], in milliseconds. *)
Definition elapsed (now time : Z) : Z := round_half_even (now - time) 1000.

(** *** What the service calls but does not define *)

Class Externals : Type :=
  { uuid4 : nat -> string;             (* the n-th token [uuid4()] draws *)
    secure_filename : string -> string;
    strftime_yymmdd : Z -> string;     (* [strftime("%y%m%d")] *)
    OUTPUT_DIR : string;               (* [getenv('OUTPUT_DIR')] *)
    TEMPDIR : string;                  (* [getenv('TEMPDIR') or gettempdir()] *)
    kmeams : Form -> string -> FS -> outcome pyval;
    dbscan : Form -> string -> FS -> outcome pyval;
    agglomerative_clustering : Form -> string -> FS -> outcome pyval;
    isolation_forest : Form -> string -> FS -> outcome pyval;
    local_outlier_factor : Form -> string -> FS -> outcome pyval;
    one_class_svm : Form -> string -> FS -> outcome pyval }.

(** [FileStorage.save(dst)] and [open(dst, 'w')]: the directory of
    [dst] must exist. *)
Definition save (content : file) (dst : string) : Py FS unit :=
  fun s =>
    match locate s dst with
    | None => (Raise (FileNotFoundError dst), s)
    | Some k =>
        match lookup s (removelast k) with
        | Some Dir => write_file k content s
        | Some (File _) => (Raise NotADirectoryError, s)
        | None => (Raise (FileNotFoundError dst), s)
        end
    end.

(** The size of [json.dump(v)]. *)
Definition json_size (v : pyval) : Z :=
  match v with
  | VJson doc => Z.of_nat (String.length doc)
  | VStr s => Z.of_nat (String.length s + 2)
  | _ => 4%Z
  end.

(** The value SQLite stores for a parameter bound to an integer column. *)
Definition as_int (v : pyval) : option Z :=
  match v with VInt z => Some z | _ => None end.

(** The value SQLite stores for a parameter bound to a text column. *)
Definition as_text (v : pyval) : option string :=
  match v with VStr s => Some s | _ => None end.

Definition digit (n : nat) : string :=
  match n with
  | 0 => "0" | 1 => "1" | 2 => "2" | 3 => "3" | 4 => "4"
  | _ => "more"
  end.

(** The [ValueError] of unpacking [n] values into five names. *)
Definition unpack_error (n : nat) : exn :=
  if Nat.ltb n 5
  then ValueError ("not enough values to unpack (expected 5, got " ++ digit n ++ ")")
  else ValueError "too many values to unpack (expected 5)".

Definition jbool (z : Z) : jval := JBool (negb (z =? 0)%Z).
Definition jnum (o : option Z) : jval :=
  match o with Some z => JNum z | None => JNull end.
Definition jstr (o : option string) : jval :=
  match o with Some s => JStr s | None => JNull end.

Section with_externals.
Context {E : Externals}.

(** Call one of the delegated computations on the current files. *)
Definition call (f : FS -> outcome pyval) : Py World pyval :=
  fun w => (f (fs w), w).

(** *** [utils.py], the functions that read the environment *)

Definition validate_form (form : Form) : Py World unit :=
  if negb (validate_on_submit form) then abort 400 (errors form) else ret tt.

Definition create_ticket : Py World string :=
  fun w => (Ok (uuid4 (uuids w)), set_uuids (S (uuids w)) w).

Definition get_tmp_dir (namespace : string) : Py World string :=
  let tempdir := TEMPDIR in
  let tempdir := join tempdir namespace in
  lift_fs (mkdir tempdir) ;;;
  ret tempdir.

Definition save_to_temp (form : Form) (tmp_dir ticket : string)
  : Py World string :=
  let src_path := join3 tmp_dir "src" ticket in
  lift_fs (mkdir src_path) ;;;
  let filename := secure_filename (resource_filename form) in
  let src_file := join src_path filename in
  lift_fs (save (resource_content form) src_file) ;;;
  ret src_file.

Definition get_temp_dir : string := TEMPDIR.

Definition check_directory_writable (d : string) : Py World unit :=
  fun w =>
    match mkstemp_error w with
    | Some e => (Raise e, w)
    | None =>
        if isdir (fs w) d then (Ok tt, w)
        else (Raise (FileNotFoundError d), w)
    end.

(** *** The executor *)

(** The completion callback.  The first value of the tuple is used as a
    path component and as the key of the row: it has to be a string. *)
Definition executor_callback (future : outcome (list pyval)) : Py World unit :=
  tuple <- lift_outcome future ;;
  match tuple with
  | [VStr ticket; result; job_type; success; comment] =>
      filepath <-
        match result with
        | VNone => ret None
        | _ =>
            now <- gets clock ;;
            let rel_path := strftime_yymmdd now in
            let rel_path := join rel_path ticket in
            let output_path := join OUTPUT_DIR rel_path in
            lift_fs (mkdir output_path) ;;;
            let filepath := join3 OUTPUT_DIR rel_path "result.json" in
            lift_fs (save (plain (json_size result)) filepath) ;;;
            ret (Some filepath)
        end ;;
      get_db ;;;
      db_result <- fetchone ticket ;;
      time <- subscript db_result db.requested_time ;;
      filesize <- subscript db_result db.filesize ;;
      now <- gets clock ;;
      let execution_time := elapsed now time in
      update_ticket filepath (as_int success) execution_time
        (as_text comment) ticket
  | [_; _; _; _; _] => raise (TypeError "expected str, bytes or os.PathLike object")
  | _ => raise (unpack_error (List.length tuple))
  end.

(** The job.  [JobType] has six members, so the final [else: result =
    None] of the dispatch is never taken; the calls to the loggers are
    left out. *)
Definition enqueue (ticket src_path : string) (form : Form) (job_type : JobType)
  : Py World (list pyval) :=
  filesize <- lift_fs (stat_size src_path) ;;
  get_db ;;;
  insert_ticket ticket filesize ;;;
  try_except
    (result <- call match job_type with
                    | KMEANS => kmeams form src_path
                    | DBSCAN => dbscan form src_path
                    | AGGLO => agglomerative_clustering form src_path
                    | ISOFOREST => isolation_forest form src_path
                    | LOCALOUTLIER => local_outlier_factor form src_path
                    | SVM => one_class_svm form src_path
                    end ;;
     ret [VStr ticket; result; VJobType job_type; VInt 1; VNone])
    (fun _ => true)
    (fun e => ret [VStr ticket; VNone; VInt 0; VStr (exn_str e)]).

(** [enqueue.submit(ticket, src_path, form=form, job_type=job_type)] *)
Definition submit (ticket src_path : string) (form : Form) (job_type : JobType)
  : Py World unit :=
  modify (fun w =>
    set_jobs (jobs w ++ [{| job_ticket := ticket; job_src_path := src_path;
                            job_form := form; job_type := job_type |}]) w).

(** *** The views *)

Definition health_check : Py World Response :=
  r <- attempt (check_directory_writable get_temp_dir) ;;
  match r with
  | Raise exc =>
      make_response
        (Obj [("status", JStr "FAILED");
              ("reason", JStr "temp directory not writable");
              ("detail", JStr (exn_str exc))]) 200
  | Ok _ =>
      r <- attempt get_db ;;
      match r with
      | Raise exc =>
          make_response
            (Obj [("status", JStr "FAILED");
                  ("reason", JStr "cannot connect to SQLite backend");
                  ("detail", JStr (exn_str exc))]) 200
      | Ok _ => make_response (Obj [("status", JStr "OK")]) 200
      end
  end.

Definition ticket_links (ticket : string) : body :=
  Obj [("ticket", JStr ticket);
       ("endpoint", JStr ("/resource/" ++ ticket));
       ("status", JStr ("/status/" ++ ticket))].

(** The six [<algorithm>/file] views: they differ in the form class,
    the delegated computation and the job type. *)
Definition file_view (model : Form -> string -> FS -> outcome pyval)
  (job_type : JobType) (form : Form) : Py World Response :=
  validate_form form ;;;
  tmp_dir <- get_tmp_dir "clustering_outliers" ;;
  ticket <- create_ticket ;;
  src_file_path <- save_to_temp form tmp_dir ticket ;;
  src_file_path <- lift_fs (uncompress_file src_file_path) ;;
  if response_data form =? "prompt" then
    response <- call (model form src_file_path) ;;
    make_response (Value response) 200
  else
    submit ticket src_file_path form job_type ;;;
    let response := ticket_links ticket in
    make_response response 202.

(** The six [<algorithm>/path] views. *)
Definition path_view (model : Form -> string -> FS -> outcome pyval)
  (job_type : JobType) (form : Form) : Py World Response :=
  validate_form form ;;;
  let src_file_path := resource_data form in
  src_file_path <- lift_fs (uncompress_file src_file_path) ;;
  found <- gets (fun w => exists_ (fs w) src_file_path) ;;
  (if negb found then abort 400 "File not found" else ret tt) ;;;
  if response_data form =? "prompt" then
    response <- call (model form src_file_path) ;;
    make_response (Value response) 200
  else
    ticket <- create_ticket ;;
    submit ticket src_file_path form job_type ;;;
    let response := ticket_links ticket in
    make_response response 202.

Definition k_means_file := file_view kmeams KMEANS.
Definition dbscan_file := file_view dbscan DBSCAN.
Definition dbscan_path := path_view dbscan DBSCAN.
Definition agglomerative_file := file_view agglomerative_clustering AGGLO.
Definition agglomerative_path := path_view agglomerative_clustering AGGLO.
Definition isolation_forest_file := file_view isolation_forest ISOFOREST.
Definition isolation_forest_path := path_view isolation_forest ISOFOREST.
Definition local_outlier_factor_file := file_view local_outlier_factor LOCALOUTLIER.
Definition local_outlier_factor_path := path_view local_outlier_factor LOCALOUTLIER.
Definition svm_file := file_view one_class_svm SVM.
Definition svm_path := path_view one_class_svm SVM.

(** [GET /status/<ticket>]; the route always binds [ticket], so the
    test for a missing one never fires. *)
Definition status (ticket : string) : Py World Response :=
  get_db ;;;
  results <- fetchone ticket ;;
  match results with
  | Some row =>
      let success :=
        match db.success row with
        | Some z => jbool z
        | None => JNull
        end in
      make_response
        (Obj [("completed", jbool (db.status row));
              ("success", success);
              ("requested", JNum (db.requested_time row));
              ("execution_time(s)", jnum (db.execution_time row));
              ("comment", jstr (db.comment row))]) 200
  | None => make_response (Text "Not found.") 404
  end.

(** [GET /resource/<ticket>] *)
Definition resource (ticket : string) : Py World Response :=
  get_db ;;;
  row <- fetchone ticket ;;
  rel_path <- subscript row db.result ;;
  match rel_path with
  | None => make_response (Text "Not found.") 404
  | Some rel_path =>
      let file := join OUTPUT_DIR rel_path in
      found <- gets (fun w => isfile (fs w) file) ;;
      if negb found then make_response (Text "Resource does not exist.") 507
      else make_response (Attachment file) 200
  end.

End with_externals.

End app.

(** ** The service as a transition system

    Requests arrive in any order, worker threads pick submitted jobs and
    run their completion callbacks in any order, time passes, and the
    environment may change the files and the reachability of the store
    behind the service's back. *)

Module service.
Import fsys app.

Inductive Request : Type :=
| PostFile (job_type : JobType) (form : Form)
| PostPath (job_type : JobType) (form : Form)
| GetStatus (ticket : string)
| GetResource (ticket : string)
| GetHealth.

Inductive Event : Type :=
| EvRequest (r : Request)
| EvJob (n : nat)          (* a worker starts the n-th submitted job *)
| EvCallback (n : nat)     (* the callback of the n-th finished job runs *)
| EvTick (d : N)           (* [d] microseconds pass *)
| EvEnv (s : FS) (db_err : option string) (tmp_err : option exn).

(** The list without its n-th element, and that element. *)
Fixpoint take_nth {A} (n : nat) (l : list A) : option (A * list A) :=
  match l, n with
  | [], _ => None
  | x :: l', O => Some (x, l')
  | x :: l', S n' =>
      match take_nth n' l' with
      | Some (y, r) => Some (y, x :: r)
      | None => None
      end
  end.

Section with_externals.
Context {E : Externals}.

Definition model_of (job_type : JobType) : Form -> string -> FS -> outcome pyval :=
  match job_type with
  | KMEANS => kmeams
  | DBSCAN => dbscan
  | AGGLO => agglomerative_clustering
  | ISOFOREST => isolation_forest
  | LOCALOUTLIER => local_outlier_factor
  | SVM => one_class_svm
  end.

(** The URL map of the application. *)
Definition dispatch (r : Request) : Py World Response :=
  match r with
  | PostFile job_type form => file_view (model_of job_type) job_type form
  | PostPath job_type form => path_view (model_of job_type) job_type form
  | GetStatus ticket => status ticket
  | GetResource ticket => resource ticket
  | GetHealth => health_check
  end.

(** A worker runs [enqueue] for a job; the job becomes a future. *)
Definition run_job (j : Job) (w : World) : World :=
  let r := enqueue (job_ticket j) (job_src_path j) (job_form j) (job_type j) w in
  set_futures (futures (snd r) ++ [{| fut_job := j; fut_outcome := fst r |}])
    (snd r).

(** The default done-callback runs on the finished future; what it
    raises is logged by the executor and otherwise lost. *)
Definition run_callback (f : Future) (w : World) : World :=
  snd (executor_callback (fut_outcome f) w).

Definition exec (ev : Event) (w : World) : World :=
  match ev with
  | EvRequest r => snd (dispatch r w)
  | EvJob n =>
      match take_nth n (jobs w) with
      | Some (j, rest) => run_job j (set_jobs rest w)
      | None => w
      end
  | EvCallback n =>
      match take_nth n (futures w) with
      | Some (f, rest) => run_callback f (set_futures rest w)
      | None => w
      end
  | EvTick d => set_clock (clock w + Z.of_N d) w
  | EvEnv s db_err tmp_err =>
      {| fs := s; tickets := tickets w; db_error := db_err;
         mkstemp_error := tmp_err; jobs := jobs w; futures := futures w;
         clock := clock w; uuids := uuids w |}
  end.

Definition run (evs : list Event) (w : World) : World :=
  fold_left (fun w ev => exec ev w) evs w.

(** The service starts with an empty table and an idle executor. *)
Definition initial (w : World) : Prop :=
  tickets w = [] /\ jobs w = [] /\ futures w = [].

Definition reachable (w : World) : Prop :=
  exists w0 evs, initial w0 /\ w = run evs w0.

End with_externals.

End service.

(** ** Well-formed file systems *)

Module wf.
Import pystr posixpath fsys.

(** A name a directory entry can have. *)
Definition good_comp (c : string) : bool :=
  negb (c =? "") && negb (c =? ".") && negb (c =? "..") && negb (has_slash c).

Fixpoint nodup_keys (l : list (key * node)) : bool :=
  match l with
  | [] => true
  | (k, _) :: l' =>
      match assoc k l' with
      | None => nodup_keys l'
      | Some _ => false
      end
  end.

(** The working directory is absolute, every key is made of entry
    names, and no path is listed twice. *)
Definition wf_fs (s : FS) : bool :=
  isabs (cwd s)
  && forallb (fun kn => forallb good_comp (fst kn)) (nodes s)
  && nodup_keys (nodes s).

End wf.

(** ** The vocabulary of the properties *)

Module notions.
Import pystr posixpath fsys utils app service.

(** [descends s p q]: from [p], entering again and again the first
    non-hidden subdirectory that [os.scandir] lists leads to [q], which
    has no non-hidden subdirectory. *)
Inductive descends (s : FS) : string -> string -> Prop :=
| descends_stop (p : string) :
    get_subdirectories p s = (Ok [], s) -> descends s p p
| descends_step (p d : string) (rest : list string) (q : string) :
    get_subdirectories p s = (Ok (d :: rest), s) ->
    descends s (join p d) q ->
    descends s p q.

(** A row as [enqueue] inserts it. *)
Definition pending (r : db.Row) : Prop :=
  db.status r = 0%Z /\ db.success r = None /\ db.result r = None
  /\ db.execution_time r = None /\ db.comment r = None.

(** A row after the [UPDATE] of the completion callback. *)
Definition completed (r : db.Row) : Prop :=
  db.status r = 1%Z
  /\ exists e, db.execution_time r = Some e /\ (0 <= e)%Z.

Definition rows_ok (w : World) : Prop :=
  forall r, In r (tickets w) ->
    (db.requested_time r <= clock w)%Z /\ (pending r \/ completed r).



(** A completion callback either leaves the table alone or performs its
    one [UPDATE], on the ticket named in the tuple, with the elapsed time
    since that ticket was requested. *)
Definition completion_effect (f : Future) (w w' : World) : Prop :=
  tickets w' = tickets w
  \/ exists t res jt okv cmtv row fp,
       fut_outcome f = Ok [VStr t; res; jt; okv; cmtv]
       /\ find (fun r => db.ticket r =? t) (tickets w) = Some row
       /\ tickets w'
          = map (db.update_row fp (as_int okv)
                   (elapsed (clock w) (db.requested_time row))
                   (as_text cmtv) t) (tickets w).


Definition py_text (comment : option string) : pyval :=
  match comment with Some c => VStr c | None => VNone end.

Definition job_for (ticket src_path : string) (form : Form) (job_type : JobType)
  : Job :=
  {| job_ticket := ticket; job_src_path := src_path; job_form := form;
     job_type := job_type |}.

(** [below d q]: the key [q] is [d] or lies under it. *)
Definition below (d q : key) : Prop := exists suffix, q = (d ++ suffix)%list.

(** [confined d s s']: from [s] to [s'] nothing changed outside the
    directory [d], except that missing ancestors of [d] were created. *)
Definition confined (d : key) (s s' : FS) : Prop :=
  cwd s' = cwd s
  /\ forall q, ~ below d q ->
       lookup s' q = lookup s q
       \/ (lookup s q = None /\ lookup s' q = Some Dir /\ below q d).

(** A component [normpath] keeps: not empty, not [.], without a slash. *)
Definition proper_comp (c : string) : bool :=
  negb (c =? "") && negb (c =? ".") && negb (has_slash c).

Section with_externals.
Context {E : Externals}.



(** A submission view leaves the table, the futures and the clock alone;
    it draws at most one ticket, and submits at most one job, for the
    ticket it drew. *)
Definition submission_effect (w w' : World) : Prop :=
  tickets w' = tickets w /\ futures w' = futures w /\ clock w' = clock w
  /\ ((jobs w' = jobs w /\ uuids w <= uuids w')
      \/ (exists j, jobs w' = (jobs w ++ [j])%list
                    /\ job_ticket j = uuid4 (uuids w)
                    /\ uuids w' = S (uuids w))).


(** Where the callback of ticket [t] puts the result at time [now]. *)
Definition artifact_path (t : string) (now : Z) : string :=
  join3 OUTPUT_DIR (join (strftime_yymmdd now) t) "result.json".

(** The files after the artifact of [res] was written for [t] in [w]. *)
Definition artifact_written (t : string) (res : pyval) (w : World)
  : outcome unit * FS :=
  save (plain (json_size res)) (artifact_path t (clock w))
    (snd (mkdir (join OUTPUT_DIR (join (strftime_yymmdd (clock w)) t)) (fs w))).

(** The staging steps of a file view: the temporary directory, the
    ticket, the saved upload and its extraction. *)
Definition stage_upload (form : Form) : Py World (string * string) :=
  tmp_dir <- get_tmp_dir "clustering_outliers" ;;
  ticket <- create_ticket ;;
  src_file_path <- save_to_temp form tmp_dir ticket ;;
  src_file_path <- lift_fs (uncompress_file src_file_path) ;;
  ret (ticket, src_file_path).

End with_externals.

(** Split on the outcomes and tests a computation goes through. *)
Ltac split_outcomes :=
  repeat (cbv beta iota;
          match goal with
          | |- context [match ?x with _ => _ end] =>
              lazymatch x with
              | context [match _ with _ => _ end] => fail
              | _ => destruct x eqn:?
              end
          end).

(** The same, projecting pairs of values on the way. *)
Ltac split_staged :=
  repeat (cbv beta iota; cbn [fst snd];
          match goal with
          | |- context [match ?x with _ => _ end] =>
              lazymatch x with
              | context [match _ with _ => _ end] => fail
              | _ => destruct x eqn:?
              end
          end).

End notions.

(** ** Sample data *)

Module samples.
Import fsys app.

Definition tar_of (members : list TarInfo) : file :=
  {| as_tar := Some members; as_zip := None; st_size := 2048 |}.
Definition zip_of (members : list ZipInfo) : file :=
  {| as_tar := None; as_zip := Some members; st_size := 2048 |}.

Definition tar_member (n : string) : TarInfo :=
  {| tar_name := n; tar_isdir := false; tar_size := 10 |}.
Definition zip_member (n : string) : ZipInfo :=
  {| zip_filename := n; zip_file_size := 10 |}.

(** An upload staged as [/tmp/src/t1/upload]. *)
Definition staged (f : file) : FS :=
  {| cwd := "/srv";
     nodes := [ (["tmp"], Dir);
                (["tmp"; "src"], Dir);
                (["tmp"; "src"; "t1"], Dir);
                (["tmp"; "src"; "t1"; "upload"], File f) ] |}.

Definition upload : string := "/tmp/src/t1/upload".

Definition tar_nested : file := tar_of [tar_member "top/inner/data.csv"].
Definition tar_evil : file := tar_of [tar_member "ok.csv"; tar_member "../../evil"].
Definition zip_evil : file := zip_of [zip_member "../../evil"].

(** A directory holding a data file next to a subdirectory. *)
Definition mixed : FS :=
  {| cwd := "/srv";
     nodes := [ (["d"], Dir);
                (["d"; "a.csv"], File (plain 10));
                (["d"; "sub"], Dir) ] |}.

(** The externals of a small deployment: tickets are drawn as [ticket-],
    [ticket-|], [ticket-||], ...; k-means returns a document and DBSCAN
    raises. *)
Fixpoint tally (n : nat) : string :=
  match n with
  | O => ""
  | S n' => String "|" (tally n')
  end.

Definition demo : Externals :=
  {| uuid4 := fun n => "ticket-" ++ tally n;
     secure_filename := fun s => s;
     strftime_yymmdd := fun _ => "261103";
     OUTPUT_DIR := "/out";
     TEMPDIR := "/tmp";
     kmeams := fun _ _ _ => Ok (VJson "{}");
     dbscan := fun _ _ _ => Raise (Exception "boom");
     agglomerative_clustering := fun _ _ _ => Ok (VJson "{}");
     isolation_forest := fun _ _ _ => Ok (VJson "{}");
     local_outlier_factor := fun _ _ _ => Ok (VJson "{}");
     one_class_svm := fun _ _ _ => Ok (VJson "{}") |}.

Definition disk : FS :=
  {| cwd := "/srv";
     nodes := [ (["tmp"], Dir);
                (["out"], Dir);
                (["data"], Dir);
                (["data"; "points.csv"], File (plain 120)) ] |}.

(** The service just started, at one second past the epoch. *)
Definition world0 : World :=
  {| fs := disk; tickets := []; db_error := None; mkstemp_error := None;
     jobs := []; futures := []; clock := 1000000; uuids := 0 |}.

Definition form_for (mode : string) : Form :=
  {| validate_on_submit := true; errors := "";
     resource_data := "/data/points.csv";
     resource_filename := "points.csv";
     resource_content := plain 120;
     response_data := mode;
     parameters := "k=3" |}.

(** A deferred k-means submission, picked up by a worker; two and a half
    seconds later its callback is due. *)
Definition world_running : World :=
  @service.run demo
    [service.EvRequest (service.PostPath KMEANS (form_for "deferred"));
     service.EvJob 0;
     service.EvTick 2500000] world0.

Definition world_done : World :=
  @service.exec demo (service.EvCallback 0) world_running.

(** An archive lying in the working directory, named without any
    directory part. *)
Definition bare : FS :=
  {| cwd := "/srv";
     nodes := [ (["srv"], Dir);
                (["srv"; "a.tar"], File (tar_of [tar_member "x.csv"])) ] |}.

(** A directory with a hidden subdirectory, a file and two visible
    subdirectories. *)
Definition listing : FS :=
  {| cwd := "/srv";
     nodes := [ (["d"], Dir);
                (["d"; ".git"], Dir);
                (["d"; "a.csv"], File (plain 10));
                (["d"; "one"], Dir);
                (["d"; "two"], Dir) ] |}.

(** A disk on which the place of the first result is taken by a
    directory. *)
Definition disk_result_taken : FS :=
  {| cwd := "/srv";
     nodes := [ (["tmp"], Dir);
                (["out"], Dir);
                (["out"; "261103"], Dir);
                (["out"; "261103"; "ticket-"], Dir);
                (["out"; "261103"; "ticket-"; "result.json"], Dir);
                (["data"], Dir);
                (["data"; "points.csv"], File (plain 120)) ] |}.

End samples.

(** * Properties *)

(** ** The path functions on small inputs *)

Module sanity.
Import fsys utils.

Example split_ex : pystr.split "a//b/" = ["a"; ""; "b"; ""].
Proof. reflexivity. Qed.
Example normpath_ex1 : posixpath.normpath "/tmp/src/../../evil" = "/evil".
Proof. reflexivity. Qed.
Example normpath_ex2 : posixpath.normpath "a/./b/../../../c" = "../c".
Proof. reflexivity. Qed.
Example normpath_ex3 : posixpath.normpath "//a/b/" = "//a/b".
Proof. reflexivity. Qed.
Example normpath_ex4 : posixpath.normpath "/.." = "/".
Proof. reflexivity. Qed.
Example dirname_ex1 : posixpath.dirname "/tmp/src/t1/a.tar" = "/tmp/src/t1".
Proof. reflexivity. Qed.
Example dirname_ex2 : posixpath.dirname "a.tar" = "".
Proof. reflexivity. Qed.
Example dirname_ex3 : posixpath.dirname "/a.tar" = "/".
Proof. reflexivity. Qed.
Example dirname_ex4 : posixpath.dirname "/a//b" = "/a".
Proof. reflexivity. Qed.
Example join_ex : posixpath.join3 "/out" "230101" "result.json" = "/out/230101/result.json".
Proof. reflexivity. Qed.

(** A sibling whose name extends the destination's passes the guard of
    [safe_extract]: the test compares strings, not path components. *)
Example sibling_passes_guard :
  is_within_directory "/srv" "/tmp/src/t1" (posixpath.join "/tmp/src/t1" "../t1_evil/x")
  = true.
Proof. reflexivity. Qed.

Example staged_fs_well_formed : wf.wf_fs (samples.staged samples.tar_nested) = true.
Proof. reflexivity. Qed.

Example nested_archive_resolves :
  fst (uncompress_file samples.upload (samples.staged samples.tar_nested))
  = Ok "/tmp/src/t1/top/inner".
Proof. reflexivity. Qed.

End sanity.

(** ** Staging: [uncompress_file] *)

Module staging.
Import pystr posixpath fsys utils.

Lemma commonprefix_is_prefix (a b : string) :
  (commonprefix a b =? a) = String.prefix a b.
Proof.
  revert b; induction a as [|c a IH]; intros [|d b]; simpl; try reflexivity.
  destruct (Ascii.eqb_spec c d) as [->|Hcd].
  - destruct (Ascii.ascii_dec d d) as [_|C]; [|congruence].
    simpl. rewrite Ascii.eqb_refl. apply IH.
  - destruct (Ascii.ascii_dec c d) as [C|_]; [congruence|]. reflexivity.
Qed.

(** The guard of [safe_extract] is the string-prefix test. *)
Lemma is_within_directory_prefix (cwd directory target : string) :
  is_within_directory cwd directory target
  = String.prefix (abspath cwd directory) (abspath cwd target).
Proof. unfold is_within_directory. apply commonprefix_is_prefix. Qed.








End staging.

(** ** Paths and directory listings *)

Module path_facts.
Import pystr posixpath fsys wf.

Lemma split_nonempty (s : string) : split s <> [].
Proof.
  destruct s as [|c s]; simpl; [discriminate|].
  destruct (Ascii.eqb c slash); [discriminate|].
  destruct (split s); discriminate.
Qed.

Lemma split_app_slash (a b : string) :
  split (a ++ String slash b) = (split a ++ split b)%list.
Proof.
  induction a as [|c a IH]; simpl.
  - reflexivity.
  - destruct (Ascii.eqb c slash).
    + now rewrite IH.
    + rewrite IH. destruct (split a) eqn:Ha; [|reflexivity].
      now destruct (split_nonempty a).
Qed.

Lemma split_no_slash (s : string) : has_slash s = false -> split s = [s].
Proof.
  induction s as [|c s IH]; simpl; [reflexivity|].
  intros H. apply orb_false_iff in H as [Hc Hs].
  rewrite Hc, (IH Hs). reflexivity.
Qed.

Lemma endswith_slash_inv (a : string) :
  endswith_slash a = true -> exists a', a = a' ++ String slash "".
Proof.
  induction a as [|c a IH]; simpl; [discriminate|].
  destruct a as [|d a].
  - intros H. apply Ascii.eqb_eq in H as ->. now exists "".
  - intros H. destruct (IH H) as [a' Ha']. exists (String c a').
    simpl. now rewrite <- Ha'.
Qed.

Lemma append_assoc (a b c : string) : (a ++ b) ++ c = a ++ (b ++ c).
Proof. induction a as [|x a IH]; simpl; [reflexivity|now rewrite IH]. Qed.

Lemma append_empty_r (a : string) : a ++ "" = a.
Proof. induction a as [|x a IH]; simpl; [reflexivity|now rewrite IH]. Qed.

Lemma norm_step_empty (r : bool) (st : list string) : norm_step r st "" = st.
Proof. reflexivity. Qed.

Lemma good_comp_inv (d : string) :
  good_comp d = true ->
  (d =? "") = false /\ (d =? ".") = false /\ (d =? "..") = false
  /\ has_slash d = false.
Proof.
  unfold good_comp. intros H.
  repeat (apply andb_true_iff in H as [H ?]).
  repeat split; now apply negb_true_iff.
Qed.

Lemma norm_step_good (r : bool) (st : list string) (d : string) :
  good_comp d = true -> norm_step r st d = (st ++ [d])%list.
Proof.
  intros H. apply good_comp_inv in H as (H1 & H2 & H3 & _).
  unfold norm_step. now rewrite H1, H2, H3.
Qed.

Lemma startswith_cons (c : ascii) (d : string) :
  startswith (String c d) "/" = Ascii.eqb c slash.
Proof.
  change (startswith (String c d) "/")
    with (if Ascii.ascii_dec slash c then String.prefix "" d else false).
  destruct (Ascii.ascii_dec slash c) as [<-|Hc].
  - rewrite Ascii.eqb_refl. now destruct d.
  - symmetry. apply Ascii.eqb_neq. congruence.
Qed.

Lemma good_comp_not_abs (d : string) :
  good_comp d = true -> startswith d "/" = false.
Proof.
  intros H. apply good_comp_inv in H as (H1 & _ & _ & H4).
  destruct d as [|c d]; [discriminate|].
  simpl in H4. apply orb_false_iff in H4 as [Hc _].
  now rewrite startswith_cons.
Qed.

(** The loop of [normpath] sees the components of [join a b] as those of
    [a] followed by those of [b]. *)
Lemma fold_join (r : bool) (a b : string) (st : list string) :
  startswith b "/" = false ->
  fold_left (norm_step r) (split (join a b)) st
  = fold_left (norm_step r) (split a ++ split b)%list st.
Proof.
  intros Hb. unfold join. rewrite Hb.
  destruct (a =? "") eqn:Ha; simpl orb; cbv iota.
  - apply String.eqb_eq in Ha as ->. reflexivity.
  - destruct (endswith_slash a) eqn:He.
    + destruct (endswith_slash_inv a He) as [a' ->].
      rewrite append_assoc. simpl append.
      rewrite !split_app_slash. simpl split at 2.
      rewrite <- app_assoc, !fold_left_app. reflexivity.
    + simpl append. now rewrite split_app_slash.
Qed.

Lemma rooted_isabs (p : string) : Nat.ltb 0 (initial_slashes p) = isabs p.
Proof.
  unfold initial_slashes, isabs. destruct (startswith p "/"); [|reflexivity].
  now destruct (startswith p "//" && negb (startswith p "///")).
Qed.

Lemma isabs_app (a b : string) : (a =? "") = false -> isabs (a ++ b) = isabs a.
Proof.
  destruct a as [|c a]; [discriminate|]. intros _.
  unfold isabs. cbn [append]. now rewrite !startswith_cons.
Qed.

Lemma isabs_join (a b : string) :
  startswith b "/" = false -> isabs (join a b) = isabs a.
Proof.
  intros Hb. unfold join. rewrite Hb.
  destruct (a =? "") eqn:Ha; simpl orb; cbv iota.
  - apply String.eqb_eq in Ha as ->. exact Hb.
  - destruct (endswith_slash a); now apply isabs_app.
Qed.

Lemma join_not_empty (a d : string) : (d =? "") = false -> (join a d =? "") = false.
Proof.
  intros Hd. unfold join.
  assert (Happ : forall x, (x ++ d =? "") = false).
  { intros x. destruct x; simpl; [exact Hd|reflexivity]. }
  destruct (startswith d "/"); [exact Hd|].
  destruct ((a =? "") || endswith_slash a); [apply Happ|].
  destruct a; reflexivity.
Qed.

(** Entering the entry [d] of the directory [p] appends [d] to its key. *)
Lemma resolve_join (cwd p d : string) :
  isabs cwd = true -> good_comp d = true ->
  norm_comps (absolute cwd (join p d))
  = (norm_comps (absolute cwd p) ++ [d])%list.
Proof.
  intros Hcwd Hd.
  pose proof (good_comp_not_abs d Hd) as Hdabs.
  pose proof (good_comp_inv d Hd) as (_ & _ & _ & Hslash).
  unfold absolute. rewrite (isabs_join p d Hdabs).
  destruct (isabs p) eqn:Hp; unfold norm_comps; rewrite !rooted_isabs.
  - rewrite (isabs_join p d Hdabs), Hp.
    rewrite fold_join by exact Hdabs.
    rewrite fold_left_app, (split_no_slash d Hslash). simpl.
    now apply norm_step_good.
  - assert (Hjabs : startswith (join p d) "/" = false).
    { change (isabs (join p d) = false). now rewrite isabs_join. }
    rewrite !isabs_join by assumption. rewrite Hcwd.
    rewrite !fold_join by assumption.
    rewrite !fold_left_app.
    rewrite fold_join by exact Hdabs.
    rewrite fold_left_app, (split_no_slash d Hslash). simpl.
    now apply norm_step_good.
Qed.

(** *** Keys *)

Lemma key_eqb_eq (k k' : key) : key_eqb k k' = true <-> k = k'.
Proof.
  revert k'; induction k as [|c k IH]; intros [|c' k']; simpl;
    try (split; [discriminate|congruence]); [tauto|].
  rewrite andb_true_iff, String.eqb_eq, IH. split.
  - now intros [-> ->].
  - intros H; injection H; auto.
Qed.

Lemma key_eqb_refl (k : key) : key_eqb k k = true.
Proof. now apply key_eqb_eq. Qed.

Lemma child_name_spec (k k' : key) (c : string) :
  child_name k k' = Some c <-> k' = (k ++ [c])%list.
Proof.
  revert k'; induction k as [|x k IH]; intros k'; simpl.
  - destruct k' as [|y [|z k']]; split; intros H; try discriminate;
      try congruence.
  - destruct k' as [|y k'].
    + split; [discriminate|]. intros H. discriminate.
    + destruct (String.eqb_spec x y) as [->|Hxy].
      * rewrite IH. split; intros H; [now rewrite H|].
        now injection H.
      * split; [discriminate|]. intros H. injection H. congruence.
Qed.

Lemma assoc_In (k : key) (l : list (key * node)) (n : node) :
  assoc k l = Some n -> In (k, n) l.
Proof.
  induction l as [|[k' n'] l IH]; simpl; [discriminate|].
  destruct (key_eqb k k') eqn:Hk.
  - apply key_eqb_eq in Hk as ->. intros [= ->]. now left.
  - intros H. right. now apply IH.
Qed.

Lemma In_assoc_some (k : key) (l : list (key * node)) (n : node) :
  In (k, n) l -> assoc k l <> None.
Proof.
  induction l as [|[k' n'] l IH]; simpl; [tauto|].
  intros [[= -> ->]|H].
  - now rewrite key_eqb_refl.
  - destruct (key_eqb k k'); [discriminate|now apply IH].
Qed.

Lemma nodup_assoc (k : key) (l : list (key * node)) (n : node) :
  nodup_keys l = true -> In (k, n) l -> assoc k l = Some n.
Proof.
  induction l as [|[k' n'] l IH]; simpl; [tauto|].
  destruct (assoc k' l) eqn:Hk'; [discriminate|].
  intros Hnd [[= -> ->]|H].
  - now rewrite key_eqb_refl.
  - destruct (key_eqb k k') eqn:Hk.
    + apply key_eqb_eq in Hk as ->.
      now destruct (In_assoc_some k' l n H).
    + now apply IH.
Qed.

Lemma In_max_depth (s : FS) (k : key) (n : node) :
  In (k, n) (nodes s) -> List.length k <= max_depth s.
Proof.
  unfold max_depth. induction (nodes s) as [|[k' n'] l IH]; simpl; [tauto|].
  intros [[= -> ->]|H]; [lia|]. specialize (IH H). lia.
Qed.

Lemma wf_fs_inv (s : FS) :
  wf_fs s = true ->
  isabs (cwd s) = true
  /\ (forall k n, In (k, n) (nodes s) -> forallb good_comp k = true)
  /\ nodup_keys (nodes s) = true.
Proof.
  unfold wf_fs. intros H.
  apply andb_true_iff in H as [H Hnd]. apply andb_true_iff in H as [Habs Hg].
  repeat split; try assumption.
  intros k n Hin. rewrite forallb_forall in Hg. exact (Hg (k, n) Hin).
Qed.

Lemma forallb_last (k : key) (c : string) :
  forallb good_comp (k ++ [c])%list = true -> good_comp c = true.
Proof.
  rewrite forallb_app. simpl. intros H.
  apply andb_true_iff in H as [_ H]. now rewrite andb_true_r in H.
Qed.

(** What [os.scandir] lists for the directory at [k]. *)
Lemma In_entries (s : FS) (k : key) (e : DirEntry) :
  In e (flat_map (entry_of k) (nodes s)) ->
  exists n, In ((k ++ [name e])%list, n) (nodes s)
            /\ is_dir e = match n with Dir => true | File _ => false end.
Proof.
  rewrite in_flat_map. intros ([k' n] & Hin & He).
  unfold entry_of in He. simpl in He.
  destruct (child_name k k') as [c|] eqn:Hc; [|destruct He].
  destruct He as [<-|[]]. simpl.
  apply child_name_spec in Hc as ->. now exists n.
Qed.

End path_facts.

(** ** Locating the data directory: [get_extracted_path] *)

Module unwrapping.
Import pystr posixpath fsys utils wf path_facts notions.

Lemma get_subdirectories_dir (s : FS) (p : string) (k : key) :
  locate s p = Some k -> lookup s k = Some Dir ->
  get_subdirectories p s
  = (Ok (map name
           (filter (fun entry => negb (startswith (name entry) ".") && is_dir entry)
              (flat_map (entry_of k) (nodes s)))), s).
Proof.
  intros Hl Hk. unfold get_subdirectories, bind, scandir.
  now rewrite Hl, Hk.
Qed.

(** The first listed subdirectory is a directory one level down. *)
Lemma first_subdirectory (s : FS) (p : string) (k : key) (d : string)
  (rest : list string) :
  wf_fs s = true ->
  locate s p = Some k -> lookup s k = Some Dir ->
  get_subdirectories p s = (Ok (d :: rest), s) ->
  locate s (join p d) = Some (k ++ [d])%list
  /\ lookup s (k ++ [d])%list = Some Dir
  /\ List.length k < max_depth s.
Proof.
  intros Hwf Hl Hk Hsub.
  apply wf_fs_inv in Hwf as (Habs & Hgood & Hnd).
  rewrite (get_subdirectories_dir s p k Hl Hk) in Hsub.
  injection Hsub as Hsub.
  assert (Hin : In d (map name
    (filter (fun entry => negb (startswith (name entry) ".") && is_dir entry)
       (flat_map (entry_of k) (nodes s))))) by (rewrite Hsub; now left).
  apply in_map_iff in Hin as (e & <- & He).
  apply filter_In in He as [He Hf].
  apply andb_true_iff in Hf as [_ Hdir].
  apply In_entries in He as (n & Hin & Hn).
  rewrite Hdir in Hn. destruct n; [|discriminate].
  pose proof (forallb_last _ _ (Hgood _ _ Hin)) as Hd.
  pose proof (good_comp_inv _ Hd) as (Hne & _).
  repeat split.
  - unfold locate in *. rewrite (join_not_empty p _ Hne).
    destruct (p =? ""); [discriminate|]. injection Hl as <-.
    now rewrite (resolve_join _ p _ Habs Hd).
  - unfold lookup. destruct (k ++ [name e])%list eqn:Hk'.
    + now destruct k.
    + rewrite <- Hk' in Hin |- *. now apply nodup_assoc.
  - apply In_max_depth in Hin. rewrite length_app in Hin. simpl in Hin. lia.
Qed.

Lemma dir_depth (s : FS) (k : key) :
  lookup s k = Some Dir -> List.length k <= max_depth s.
Proof.
  destruct k as [|c k]; [simpl; lia|]. unfold lookup.
  intros H. apply assoc_In in H. now apply In_max_depth in H.
Qed.

(** With as many frames as the file system is deep below [p], the
    recursion finishes, on the directory the descent leads to. *)
Lemma get_extracted_path_fuel_descends (s : FS) (fuel : nat) :
  wf_fs s = true ->
  forall (p : string) (k : key),
    locate s p = Some k -> lookup s k = Some Dir ->
    max_depth s < fuel + List.length k ->
    exists q, get_extracted_path_fuel fuel p s = (Ok q, s) /\ descends s p q.
Proof.
  intros Hwf. induction fuel as [|fuel IH]; intros p k Hl Hk Hfuel.
  - apply dir_depth in Hk. simpl in Hfuel. lia.
  - cbn [get_extracted_path_fuel]. unfold bind at 1.
    pose proof (get_subdirectories_dir s p k Hl Hk) as Hsub.
    rewrite Hsub.
    destruct (map name _) as [|d rest] eqn:Hsubs.
    + exists p. split; [reflexivity|]. now apply descends_stop.
    + destruct (first_subdirectory s p k d rest Hwf Hl Hk Hsub)
        as (Hl' & Hk' & Hdepth).
      destruct (IH (join p d) (k ++ [d])%list Hl' Hk') as (q & Hq & Hdesc).
      { rewrite length_app. simpl. lia. }
      exists q. split; [exact Hq|].
      now apply descends_step with (d := d) (rest := rest).
Qed.



(** A chain of single subdirectories resolves to the innermost one. *)
Corollary get_extracted_path_chain (s : FS) (p d1 d2 : string) :
  wf_fs s = true -> isdir s p = true ->
  get_subdirectories p s = (Ok [d1], s) ->
  get_subdirectories (join p d1) s = (Ok [d2], s) ->
  get_subdirectories (join (join p d1) d2) s = (Ok [], s) ->
  get_extracted_path p s = (Ok (join (join p d1) d2), s).
Proof.
  intros Hwf Hdir H0 H1 H2. unfold isdir, stat_node in Hdir.
  destruct (locate s p) as [k|] eqn:Hl; [|discriminate].
  destruct (lookup s k) as [[|f]|] eqn:Hk; try discriminate.
  destruct (get_extracted_path_fuel_descends s (S (max_depth s)) Hwf p k Hl Hk)
    as (q & Hq & Hdesc); [lia|].
  unfold get_extracted_path, bind, get. rewrite Hq. do 2 f_equal.
  inversion Hdesc as [p0 Hs|p0 d rest q0 Hs Hd]; subst; [congruence|].
  rewrite H0 in Hs. injection Hs as <- <-.
  inversion Hd as [p0 Hs|p0 d rest q0 Hs Hd']; subst; [congruence|].
  rewrite H1 in Hs. injection Hs as <- <-.
  inversion Hd' as [p0 Hs|p0 d rest q0 Hs Hd'']; subst; [reflexivity|].
  congruence.
Qed.


End unwrapping.


(** ** The read-only views *)

Module views.
Import pystr posixpath fsys utils app notions.

Section with_externals.
Context {E : Externals}.

Lemma check_directory_writable_state (d : string) (w : World) :
  snd (check_directory_writable d w) = w.
Proof.
  unfold check_directory_writable.
  destruct (mkstemp_error w); [reflexivity|]. now destruct (isdir (fs w) d).
Qed.

Lemma get_db_state (w : World) : snd (get_db w) = w.
Proof. unfold get_db. now destruct (db_error w). Qed.

Lemma get_db_ok (w : World) : db_error w = None -> get_db w = (Ok tt, w).
Proof. unfold get_db. now intros ->. Qed.


(** *** [GET /resource/<ticket>] *)

Lemma resource_absent (ticket : string) (w : World) :
  db_error w = None ->
  find (fun r => db.ticket r =? ticket) (tickets w) = None ->
  resource ticket w
  = (Raise (TypeError "'NoneType' object is not subscriptable"), w).
Proof.
  intros Hdb Hrow. unfold resource, bind, fetchone, gets.
  rewrite (get_db_ok w Hdb), Hrow. reflexivity.
Qed.

Lemma resource_no_result (ticket : string) (w : World) (row : db.Row) :
  db_error w = None ->
  find (fun r => db.ticket r =? ticket) (tickets w) = Some row ->
  db.result row = None ->
  resource ticket w
  = (Ok {| resp_body := Text "Not found."; status_code := 404 |}, w).
Proof.
  intros Hdb Hrow Hres. unfold resource, bind, fetchone, gets.
  rewrite (get_db_ok w Hdb), Hrow. cbn [subscript]. unfold ret.
  rewrite Hres. reflexivity.
Qed.

Lemma resource_artifact (ticket : string) (w : World) (row : db.Row)
  (rel_path : string) :
  db_error w = None ->
  find (fun r => db.ticket r =? ticket) (tickets w) = Some row ->
  db.result row = Some rel_path ->
  resource ticket w
  = (Ok (if isfile (fs w) (join OUTPUT_DIR rel_path)
         then {| resp_body := Attachment (join OUTPUT_DIR rel_path);
                 status_code := 200 |}
         else {| resp_body := Text "Resource does not exist.";
                 status_code := 507 |}), w).
Proof.
  intros Hdb Hrow Hres. unfold resource, bind, fetchone, gets.
  rewrite (get_db_ok w Hdb), Hrow. cbn [subscript]. unfold ret.
  rewrite Hres. now destruct (isfile (fs w) (join OUTPUT_DIR rel_path)).
Qed.

End with_externals.

(** C2, where the code departs from it.  For a ticket that is not in the
    store, [fetchone()] returns [None] and subscripting it raises
    [TypeError]: the view answers 500, not the 404 its own documentation
    promises. *)
Theorem resource_unknown_ticket_crashes :
  @resource samples.demo "no-such-ticket" samples.world0
  = (Raise (TypeError "'NoneType' object is not subscriptable"), samples.world0)
  /\ flask_status (fst (@resource samples.demo "no-such-ticket" samples.world0))
     = 500%Z.
Proof. split; reflexivity. Qed.

End views.

(** ** Jobs and their completion *)

Module jobs.
Import pystr posixpath fsys utils app service.

Section with_externals.
Context {E : Externals}.

(** Unpacking four values into five names fails, and nothing is done. *)
Lemma callback_rejects_four (a b c d : pyval) (w : World) :
  executor_callback (Ok [a; b; c; d]) w
  = (Raise (ValueError "not enough values to unpack (expected 5, got 4)"), w).
Proof.
  unfold executor_callback, bind, lift_outcome.
  destruct a; reflexivity.
Qed.

(** What [enqueue] returns when the delegated computation raises. *)
Lemma enqueue_failure (ticket src_path : string) (form : Form)
  (job_type : JobType) (w : World) (size : Z) (e : exn) :
  stat_size src_path (fs w) = (Ok size, fs w) ->
  db_error w = None ->
  model_of job_type form src_path (fs w) = Raise e ->
  enqueue ticket src_path form job_type w
  = (Ok [VStr ticket; VNone; VInt 0; VStr (exn_str e)],
     set_tickets (tickets w ++ [db.new_row ticket size (clock w)])%list
       (set_fs (fs w) w)).
Proof.
  intros Hstat Hdb Hmodel. unfold enqueue, bind at 1, lift_fs.
  rewrite Hstat. cbn [fst snd]. unfold bind at 1.
  rewrite views.get_db_ok by exact Hdb.
  unfold bind at 1, insert_ticket, modify, try_except, bind, call.
  cbn [fs set_tickets set_fs].
  replace (match job_type with
           | KMEANS => kmeams form src_path
           | DBSCAN => dbscan form src_path
           | AGGLO => agglomerative_clustering form src_path
           | ISOFOREST => isolation_forest form src_path
           | LOCALOUTLIER => local_outlier_factor form src_path
           | SVM => one_class_svm form src_path
           end (fs w)) with (model_of job_type form src_path (fs w))
    by now destruct job_type.
  rewrite Hmodel. reflexivity.
Qed.

End with_externals.

(** C1, where the code departs from it.  A deferred DBSCAN job whose
    computation raises: the exception is caught inside the job, which
    returns a tuple of four values; the completion callback unpacks five,
    raises [ValueError] and never updates the ticket, which stays pending
    with no success flag and no comment. *)
Theorem failed_job_is_never_recorded :
  let submitted :=
    @run samples.demo [EvRequest (PostPath DBSCAN (samples.form_for "deferred"));
                       EvJob 0] samples.world0 in
  let finished := @exec samples.demo (EvCallback 0) submitted in
  map fut_outcome (futures submitted)
  = [Ok [VStr "ticket-"; VNone; VInt 0; VStr "boom"]]
  /\ fst (@executor_callback samples.demo
            (Ok [VStr "ticket-"; VNone; VInt 0; VStr "boom"])
            (set_futures [] submitted))
     = Raise (ValueError "not enough values to unpack (expected 5, got 4)")
  /\ tickets finished = [db.new_row "ticket-" 120 1000000]
  /\ futures finished = [].
Proof. repeat split; reflexivity. Qed.

End jobs.

(** ** What each event does to the table and to the executor *)

Module effects.
Import pystr posixpath fsys utils app service notions.

Section with_externals.
Context {E : Externals}.

Lemma status_state (t : string) (w : World) : snd (status t w) = w.
Proof.
  unfold status, bind, get_db, fetchone, gets, make_response, ret.
  now split_outcomes.
Qed.

Lemma resource_state (t : string) (w : World) : snd (resource t w) = w.
Proof.
  unfold resource, bind, get_db, fetchone, gets, subscript, make_response,
    ret, raise.
  now split_outcomes.
Qed.

Lemma health_check_state (w : World) : snd (health_check w) = w.
Proof.
  unfold health_check, bind, attempt.
  rewrite views.check_directory_writable_state.
  destruct (fst (check_directory_writable get_temp_dir w)); [|reflexivity].
  rewrite views.get_db_state. now destruct (fst (get_db w)).
Qed.

Lemma file_view_effect (model : Form -> string -> FS -> outcome pyval)
  (job_type : JobType) (form : Form) (w : World) :
  submission_effect w (snd (file_view model job_type form w)).
Proof.
  unfold submission_effect, file_view, validate_form, get_tmp_dir, create_ticket,
    save_to_temp, submit, call, abort, make_response, bind, lift_fs, modify,
    ret, raise.
  split_outcomes; cbn; repeat split; try (left; split; [reflexivity|lia]);
    right; eexists; repeat split.
Qed.

Lemma path_view_effect (model : Form -> string -> FS -> outcome pyval)
  (job_type : JobType) (form : Form) (w : World) :
  submission_effect w (snd (path_view model job_type form w)).
Proof.
  unfold submission_effect, path_view, validate_form, create_ticket,
    submit, call, abort, make_response, bind, lift_fs, modify, gets, ret, raise.
  split_outcomes; cbn; repeat split; try (left; split; [reflexivity|lia]);
    right; eexists; repeat split.
Qed.

Lemma request_effect (r : Request) (w : World) :
  submission_effect w (snd (dispatch r w)).
Proof.
  destruct r as [jt form|jt form|t|t|]; cbn [dispatch].
  - apply file_view_effect.
  - apply path_view_effect.
  - rewrite status_state. unfold submission_effect. intuition.
  - rewrite resource_state. unfold submission_effect. intuition.
  - rewrite health_check_state. unfold submission_effect. intuition.
Qed.

(** A job adds its future; it adds its pending row, unless it raised
    before the [INSERT]. *)
Lemma job_effect (j : Job) (w : World) :
  jobs (run_job j w) = jobs w /\ clock (run_job j w) = clock w /\ uuids (run_job j w) = uuids w
  /\ exists r,
       futures (run_job j w) = (futures w ++ [{| fut_job := j; fut_outcome := r |}])%list
       /\ ((tickets (run_job j w) = tickets w /\ exists e, r = Raise e)
           \/ (exists size rest,
                 tickets (run_job j w)
                 = (tickets w ++ [db.new_row (job_ticket j) size (clock w)])%list
                 /\ r = Ok (VStr (job_ticket j) :: rest))).
Proof.
  unfold run_job, enqueue, insert_ticket, get_db, call, try_except, bind,
    lift_fs, modify, ret.
  split_outcomes; cbn; repeat split; eexists; (split; [reflexivity|]);
    try (left; split; [reflexivity|]; now eexists);
    right; now eexists _, _.
Qed.

Lemma find_update_row (fp : option string) (ok : option Z) (et : Z)
  (cmt : option string) (t0 t : string) (l : list db.Row) :
  find (fun r => db.ticket r =? t) (map (db.update_row fp ok et cmt t0) l)
  = option_map (db.update_row fp ok et cmt t0)
      (find (fun r => db.ticket r =? t) l).
Proof.
  induction l as [|r l IH]; [reflexivity|]. cbn [map find].
  replace (db.ticket (db.update_row fp ok et cmt t0 r)) with (db.ticket r)
    by (unfold db.update_row; now destruct (db.ticket r =? t0)).
  destruct (db.ticket r =? t); [reflexivity|exact IH].
Qed.

Lemma callback_effect (f : Future) (w : World) :
  jobs (run_callback f w) = jobs w /\ futures (run_callback f w) = futures w /\ clock (run_callback f w) = clock w
  /\ uuids (run_callback f w) = uuids w /\ completion_effect f w (run_callback f w).
Proof.
  unfold completion_effect, run_callback, executor_callback, update_ticket,
    subscript, fetchone, get_db, bind, lift_fs, lift_outcome, modify, gets,
    ret, raise.
  destruct (fut_outcome f) as [tuple|e]; [|cbn; intuition].
  destruct tuple as [|[| | t | |] [|res [|jt [|okv [|cmtv [|x tuple]]]]]];
    try (cbn; now intuition).
  split_outcomes; cbn in *; repeat split; try (now left);
    right; eexists _, _, _, _, _, _, _; (split; [reflexivity|]);
    (split; [eassumption|reflexivity]).
Qed.


End with_externals.
End effects.

(** ** The life of a ticket row *)

Module lifecycle.
Import pystr posixpath fsys utils app service notions effects.

Lemma round_half_even_nonneg (n d : Z) :
  (0 <= n)%Z -> (0 < d)%Z -> (0 <= round_half_even n d)%Z.
Proof.
  intros Hn Hd. unfold round_half_even.
  assert (0 <= n / d)%Z by (apply Z.div_pos; lia).
  destruct (2 * (n mod d) <? d)%Z; [lia|].
  destruct (d <? 2 * (n mod d))%Z; [lia|].
  destruct (Z.even (n / d)); lia.
Qed.

Lemma elapsed_nonneg (now time : Z) : (time <= now)%Z -> (0 <= elapsed now time)%Z.
Proof. intros H. unfold elapsed. apply round_half_even_nonneg; lia. Qed.




Section with_externals.
Context {E : Externals}.

Lemma rows_ok_exec (ev : Event) (w : World) : rows_ok w -> rows_ok (exec ev w).
Proof.
  intros Hw. destruct ev as [r|n|n|d|s dbe tmpe]; cbn [exec].
  - destruct (request_effect r w) as (Ht & _ & Hc & _).
    intros row. rewrite Ht, Hc. apply Hw.
  - destruct (take_nth n (jobs w)) as [[j rest]|]; [|exact Hw].
    destruct (job_effect j (set_jobs rest w)) as (_ & Hc & _ & r & _ & Ht).
    intros row. rewrite Hc. cbn [clock set_jobs].
    destruct Ht as [[-> _]|(size & tl & -> & _)]; [apply Hw|].
    cbn [tickets set_jobs]. intros Hin. apply in_app_or in Hin as [Hin|[<-|[]]].
    + now apply Hw.
    + cbn. split; [lia|]. left. now repeat split.
  - destruct (take_nth n (futures w)) as [[f rest]|]; [|exact Hw].
    destruct (callback_effect f (set_futures rest w)) as (_ & _ & Hc & _ & Ht).
    intros row. rewrite Hc. cbn [clock set_futures].
    destruct Ht as [->|(t & res & jt & okv & cmtv & row0 & fp & _ & Hfind & ->)];
      [apply Hw|].
    cbn [tickets clock set_futures] in *. intros Hin.
    apply in_map_iff in Hin as (r0 & <- & Hin).
    destruct (Hw r0 Hin) as [Hreq Hst]. unfold db.update_row.
    destruct (db.ticket r0 =? t); [|now split].
    cbn. split; [exact Hreq|]. right. split; [reflexivity|].
    eexists. split; [reflexivity|].
    apply elapsed_nonneg. apply find_some in Hfind as [Hin0 _].
    now apply Hw.
  - intros row Hin. cbn [tickets clock set_clock] in *.
    destruct (Hw row Hin). split; [lia|assumption].
  - exact Hw.
Qed.

Lemma rows_ok_run (evs : list Event) (w : World) : rows_ok w -> rows_ok (run evs w).
Proof.
  revert w; induction evs as [|ev evs IH]; intros w Hw; [exact Hw|].
  cbn [run fold_left]. apply IH. now apply rows_ok_exec.
Qed.

Lemma rows_ok_reachable (w : World) : reachable w -> rows_ok w.
Proof.
  intros (w0 & evs & (Ht & _) & ->). apply rows_ok_run.
  intros r. rewrite Ht. intros [].
Qed.





Section ownership.
Hypothesis uuid4_unique : forall i j, uuid4 i = uuid4 j -> i = j.








End ownership.



End with_externals.
End lifecycle.

(** ** Tickets, as clients and workers see them *)

Module ticketing.
Import pystr posixpath fsys utils app service notions effects lifecycle.



Lemma world_running_reachable : @reachable samples.demo samples.world_running.
Proof.
  eexists samples.world0, _. split; [|reflexivity]. now repeat split.
Qed.


Section with_externals.
Context {E : Externals}.


(** C7.  While the store can be reached, [GET /status/<ticket>] answers,
    for a ticket in the table, 200 with the five fields [completed],
    [success], [requested], [execution_time(s)] and [comment], where
    [completed] is false and [success] is null as long as the row is
    pending; for a ticket that is not in the table it answers 404. *)
Theorem status_reports_ticket (w : World) (t : string) :
  reachable w -> db_error w = None ->
  match find (fun r => db.ticket r =? t) (tickets w) with
  | Some row =>
      exists c s q x m,
        status t w
        = (Ok {| resp_body := Obj [("completed", JBool c); ("success", s);
                                   ("requested", q);
                                   ("execution_time(s)", x);
                                   ("comment", m)];
                 status_code := 200 |}, w)
        /\ (db.status row = 0%Z -> c = false /\ s = JNull)
  | None =>
      status t w
      = (Ok {| resp_body := Text "Not found."; status_code := 404 |}, w)
  end.
Proof.
  intros Hreach Hdb. apply rows_ok_reachable in Hreach.
  unfold status, bind, fetchone, gets. rewrite (views.get_db_ok w Hdb).
  destruct (find (fun r => db.ticket r =? t) (tickets w)) as [row|] eqn:Hfind;
    [|reflexivity].
  eexists _, _, _, _, _. split; [reflexivity|].
  intros Hst. rewrite Hst. split; [reflexivity|].
  apply find_some in Hfind as [Hin _].
  destruct (Hreach row Hin) as [_ [(_ & -> & _)|(Hone & _)]];
    [reflexivity|congruence].
Qed.

End with_externals.

Lemma status_reports_ticket_witness :
  match find (fun r => db.ticket r =? "ticket-") (tickets samples.world_running) with
  | Some row =>
      exists c s q x m,
        status "ticket-" samples.world_running
        = (Ok {| resp_body := Obj [("completed", JBool c); ("success", s);
                                   ("requested", q);
                                   ("execution_time(s)", x);
                                   ("comment", m)];
                 status_code := 200 |}, samples.world_running)
        /\ (db.status row = 0%Z -> c = false /\ s = JNull)
  | None =>
      status "ticket-" samples.world_running
      = (Ok {| resp_body := Text "Not found."; status_code := 404 |},
         samples.world_running)
  end.
Proof.
  apply (@status_reports_ticket samples.demo samples.world_running "ticket-").
  - exact world_running_reachable.
  - reflexivity.
Defined.

Section with_unique_tickets.
Context {E : Externals}.
Hypothesis uuid4_unique : forall i j, uuid4 i = uuid4 j -> i = j.



End with_unique_tickets.




End ticketing.

(** ** Submissions *)

Module submission.
Import pystr posixpath fsys utils app service notions effects.

Section with_externals.
Context {E : Externals}.

(** A file view is its validation, its staging and its answer. *)
Lemma file_view_staged (model : Form -> string -> FS -> outcome pyval)
  (job_type : JobType) (form : Form) (w : World) :
  file_view model job_type form w
  = (validate_form form ;;;
     staged <- stage_upload form ;;
     if response_data form =? "prompt" then
       response <- call (model form (snd staged)) ;;
       make_response (Value response) 200
     else
       submit (fst staged) (snd staged) form job_type ;;;
       make_response (ticket_links (fst staged)) 202) w.
Proof.
  unfold file_view, stage_upload, bind, ret.
  split_staged; reflexivity.
Qed.

Lemma stage_upload_effect (form : Form) (w w1 : World) (ticket p : string) :
  stage_upload form w = (Ok (ticket, p), w1) ->
  ticket = uuid4 (uuids w) /\ tickets w1 = tickets w /\ futures w1 = futures w
  /\ jobs w1 = jobs w.
Proof.
  unfold stage_upload, get_tmp_dir, create_ticket, save_to_temp, bind, lift_fs,
    ret.
  split_outcomes; intros H; try discriminate.
  injection H as <- _ <-. now cbn.
Qed.

Lemma file_view_deferred (model : Form -> string -> FS -> outcome pyval)
  (job_type : JobType) (form : Form) (w w1 : World) (ticket p : string) :
  validate_on_submit form = true ->
  stage_upload form w = (Ok (ticket, p), w1) ->
  (response_data form =? "prompt") = false ->
  file_view model job_type form w
  = (Ok {| resp_body := ticket_links ticket; status_code := 202 |},
     set_jobs (jobs w1 ++ [job_for ticket p form job_type]) w1).
Proof.
  intros Hvalid Hstage Hmode. rewrite file_view_staged.
  unfold bind at 1. unfold validate_form. rewrite Hvalid. cbn [negb].
  unfold ret at 1. unfold bind at 1. rewrite Hstage, Hmode.
  reflexivity.
Qed.

Lemma file_view_prompt (model : Form -> string -> FS -> outcome pyval)
  (job_type : JobType) (form : Form) (w w1 : World) (ticket p : string)
  (v : pyval) :
  validate_on_submit form = true ->
  stage_upload form w = (Ok (ticket, p), w1) ->
  (response_data form =? "prompt") = true ->
  model form p (fs w1) = Ok v ->
  file_view model job_type form w
  = (Ok {| resp_body := Value v; status_code := 200 |}, w1).
Proof.
  intros Hvalid Hstage Hmode Hv. rewrite file_view_staged.
  unfold bind at 1. unfold validate_form. rewrite Hvalid. cbn [negb].
  unfold ret at 1. unfold bind at 1. rewrite Hstage, Hmode.
  unfold bind, call. cbn [snd]. rewrite Hv. reflexivity.
Qed.

Lemma path_view_deferred (model : Form -> string -> FS -> outcome pyval)
  (job_type : JobType) (form : Form) (w : World) (p : string) (s1 : FS) :
  validate_on_submit form = true ->
  uncompress_file (resource_data form) (fs w) = (Ok p, s1) ->
  exists_ s1 p = true ->
  (response_data form =? "prompt") = false ->
  path_view model job_type form w
  = (Ok {| resp_body := ticket_links (uuid4 (uuids w)); status_code := 202 |},
     set_jobs (jobs w ++ [job_for (uuid4 (uuids w)) p form job_type])
       (set_uuids (S (uuids w)) (set_fs s1 w))).
Proof.
  intros Hvalid Hstage Hfound Hmode.
  unfold path_view, validate_form, create_ticket, submit, call, abort,
    make_response, bind, lift_fs, modify, gets, ret, raise.
  rewrite Hvalid. cbv beta iota delta [negb].
  rewrite Hstage. cbn [fst snd fs set_fs].
  rewrite Hfound. cbv beta iota delta [negb]. rewrite Hmode. reflexivity.
Qed.

Lemma path_view_prompt (model : Form -> string -> FS -> outcome pyval)
  (job_type : JobType) (form : Form) (w : World) (p : string) (s1 : FS)
  (v : pyval) :
  validate_on_submit form = true ->
  uncompress_file (resource_data form) (fs w) = (Ok p, s1) ->
  exists_ s1 p = true ->
  (response_data form =? "prompt") = true ->
  model form p s1 = Ok v ->
  path_view model job_type form w
  = (Ok {| resp_body := Value v; status_code := 200 |}, set_fs s1 w).
Proof.
  intros Hvalid Hstage Hfound Hmode Hv.
  unfold path_view, validate_form, create_ticket, submit, call, abort,
    make_response, bind, lift_fs, modify, gets, ret, raise.
  rewrite Hvalid. cbv beta iota delta [negb].
  rewrite Hstage. cbn [fst snd fs set_fs].
  rewrite Hfound. cbv beta iota delta [negb]. rewrite Hmode.
  cbn [fs set_fs]. rewrite Hv. reflexivity.
Qed.

(** C8, as the code has it.  A valid submission, that is one whose form
    validates and whose input is staged, is answered by every view as
    follows.  In deferred mode: 202 with exactly the ticket and the
    resource and status endpoints of that ticket, the job being handed to
    the executor and nothing else done, neither the computation nor any
    change to the table or to the futures.  In prompt mode, when the
    delegated computation returns: 200 with its result. *)
Theorem submission_responses (job_type : JobType) (form : Form) (w : World) :
  validate_on_submit form = true ->
  (forall ticket p w1,
      stage_upload form w = (Ok (ticket, p), w1) ->
      (response_data form = "deferred" ->
       dispatch (PostFile job_type form) w
       = (Ok {| resp_body := Obj [("ticket", JStr ticket);
                                  ("endpoint", JStr ("/resource/" ++ ticket));
                                  ("status", JStr ("/status/" ++ ticket))];
                status_code := 202 |},
          set_jobs (jobs w1 ++ [job_for ticket p form job_type]) w1)
       /\ tickets w1 = tickets w /\ futures w1 = futures w)
      /\ (response_data form = "prompt" ->
          forall v, model_of job_type form p (fs w1) = Ok v ->
          dispatch (PostFile job_type form) w
          = (Ok {| resp_body := Value v; status_code := 200 |}, w1)))
  /\ (forall p s1,
        uncompress_file (resource_data form) (fs w) = (Ok p, s1) ->
        exists_ s1 p = true ->
        (response_data form = "deferred" ->
         dispatch (PostPath job_type form) w
         = (Ok {| resp_body :=
                    Obj [("ticket", JStr (uuid4 (uuids w)));
                         ("endpoint", JStr ("/resource/" ++ uuid4 (uuids w)));
                         ("status", JStr ("/status/" ++ uuid4 (uuids w)))];
                  status_code := 202 |},
            set_jobs (jobs w ++ [job_for (uuid4 (uuids w)) p form job_type])
              (set_uuids (S (uuids w)) (set_fs s1 w))))
        /\ (response_data form = "prompt" ->
            forall v, model_of job_type form p s1 = Ok v ->
            dispatch (PostPath job_type form) w
            = (Ok {| resp_body := Value v; status_code := 200 |}, set_fs s1 w))).
Proof.
  intros Hvalid. split.
  - intros ticket p w1 Hstage. split.
    + intros Hmode.
      split.
      * cbn [dispatch].
        apply (file_view_deferred _ _ _ _ _ _ _ Hvalid Hstage).
        now rewrite Hmode.
      * now destruct (stage_upload_effect form w w1 ticket p Hstage)
          as (_ & Ht & Hf & _).
    + intros Hmode v Hv. cbn [dispatch].
      apply (file_view_prompt _ _ _ _ _ _ _ v Hvalid Hstage); [|exact Hv].
      now rewrite Hmode.
  - intros p s1 Hstage Hfound. split.
    + intros Hmode. cbn [dispatch].
      apply path_view_deferred; try assumption. now rewrite Hmode.
    + intros Hmode v Hv. cbn [dispatch].
      apply (path_view_prompt _ _ _ _ p s1 v Hvalid Hstage Hfound); [|exact Hv].
      now rewrite Hmode.
Qed.

End with_externals.

Lemma submission_responses_witness :
  @dispatch samples.demo (PostPath KMEANS (samples.form_for "deferred"))
    samples.world0
  = (Ok {| resp_body :=
             Obj [("ticket", JStr "ticket-");
                  ("endpoint", JStr "/resource/ticket-");
                  ("status", JStr "/status/ticket-")];
           status_code := 202 |},
     set_jobs [job_for "ticket-" "/data/points.csv"
                 (samples.form_for "deferred") KMEANS]
       (set_uuids 1 samples.world0)).
Proof.
  refine (proj1 (proj2 (@submission_responses samples.demo KMEANS
                          (samples.form_for "deferred") samples.world0 _)
                   "/data/points.csv" samples.disk _ _) _);
    reflexivity.
Defined.

(** C8 fails as stated for prompt submissions: the form validates and
    the input is staged, and yet, the delegated computation raising, the
    view does not answer 200: the exception is not caught in prompt mode
    and leaves the view, a server error. *)
Lemma prompt_exception_propagates :
  validate_on_submit (samples.form_for "prompt") = true
  /\ uncompress_file (resource_data (samples.form_for "prompt")) samples.disk
     = (Ok "/data/points.csv", samples.disk)
  /\ exists_ samples.disk "/data/points.csv" = true
  /\ response_data (samples.form_for "prompt") = "prompt"
  /\ @dbscan_path samples.demo (samples.form_for "prompt") samples.world0
     = (Raise (Exception "boom"), samples.world0)
  /\ flask_status
       (fst (@dbscan_path samples.demo (samples.form_for "prompt") samples.world0))
     = 500%Z.
Proof. repeat split; reflexivity. Qed.

End submission.

(** ** More on staging *)

Module staging_more.
Import pystr posixpath fsys utils wf path_facts notions.

Lemma get_subdirectories_state (p : string) (s : FS) :
  snd (get_subdirectories p s) = s.
Proof.
  unfold get_subdirectories, bind, scandir, ret. now split_outcomes.
Qed.

Lemma get_subdirectories_isdir (p : string) (s s' : FS) (l : list string) :
  get_subdirectories p s = (Ok l, s') -> isdir s p = true.
Proof.
  unfold get_subdirectories, bind, scandir, ret, isdir, stat_node.
  split_outcomes; intros H; try discriminate; reflexivity.
Qed.

Lemma get_extracted_path_fuel_ok (fuel : nat) (p q : string) (s s' : FS) :
  get_extracted_path_fuel fuel p s = (Ok q, s') ->
  s' = s /\ get_subdirectories q s = (Ok [], s).
Proof.
  revert p; induction fuel as [|fuel IH]; intros p; [discriminate|].
  cbn [get_extracted_path_fuel]. unfold bind at 1.
  pose proof (get_subdirectories_state p s) as Hst.
  destruct (get_subdirectories p s) as [[[|d l]|e] s1] eqn:Hsub;
    cbn [snd] in Hst; subst s1.
  - unfold ret. intros [= <- <-]. now split.
  - apply IH.
  - discriminate.
Qed.

(** What [get_extracted_path] returns is a directory of the file system,
    which it leaves alone. *)
Lemma get_extracted_path_dir (p q : string) (s s' : FS) :
  get_extracted_path p s = (Ok q, s') -> s' = s /\ isdir s q = true.
Proof.
  unfold get_extracted_path, bind at 1, get. intros H.
  destruct (get_extracted_path_fuel_ok _ _ _ _ _ H) as [-> Hsub].
  split; [reflexivity|exact (get_subdirectories_isdir _ _ _ _ Hsub)].
Qed.

(** X6.  Whatever the file system, when [get_extracted_path] returns, the
    file system is as it was, the path returned is a directory without
    non-hidden subdirectory, and searching again from it returns it. *)
Theorem get_extracted_path_idempotent (p q : string) (s s' : FS) :
  get_extracted_path p s = (Ok q, s') ->
  s' = s /\ isdir s q = true
  /\ get_subdirectories q s = (Ok [], s)
  /\ get_extracted_path q s = (Ok q, s).
Proof.
  unfold get_extracted_path, bind at 1, get. intros H.
  destruct (get_extracted_path_fuel_ok _ _ _ _ _ H) as [-> Hsub].
  split; [reflexivity|]. split; [exact (get_subdirectories_isdir _ _ _ _ Hsub)|].
  split; [exact Hsub|].
  unfold get_extracted_path, bind at 1, get.
  cbn [get_extracted_path_fuel]. unfold bind. now rewrite Hsub.
Qed.

Lemma get_extracted_path_idempotent_witness :
  samples.mixed = samples.mixed /\ isdir samples.mixed "/d/sub" = true
  /\ get_subdirectories "/d/sub" samples.mixed = (Ok [], samples.mixed)
  /\ get_extracted_path "/d/sub" samples.mixed = (Ok "/d/sub", samples.mixed).
Proof.
  apply (get_extracted_path_idempotent "/d" "/d/sub" samples.mixed samples.mixed).
  reflexivity.
Defined.



(** What [uncompress_file] can return: a directory of the resulting file
    system, or its argument, a regular file that is no archive, the file
    system being untouched. *)
Lemma uncompress_file_result (s s' : FS) (src_file p : string) :
  uncompress_file src_file s = (Ok p, s') ->
  isdir s' p = true
  \/ (p = src_file /\ s' = s
      /\ exists f, stat_node s src_file = Some (File f)
                   /\ as_tar f = None /\ as_zip f = None).
Proof.
  unfold uncompress_file, try_except, bind at 1, gets.
  destruct (isdir s src_file) eqn:Hdir; cbn [negb].
  - unfold ret. intros [= <- <-]. now left.
  - unfold bind at 1, is_tarfile.
    destruct (stat_node s src_file) as [[|f]|] eqn:Hstat;
      try (cbn; discriminate).
    destruct (as_tar f) as [ms|] eqn:Htar.
    + unfold bind at 1, tarfile_open. rewrite Hstat, Htar.
      unfold bind at 1.
      destruct (safe_extract ms (dirname src_file) s) as [[[]|e] s1];
        [|destruct (is_FileNotFoundError e); discriminate].
      unfold bind at 1.
      destruct (get_extracted_path (dirname src_file) s1) as [[q|e] s2] eqn:Hq;
        [|destruct (is_FileNotFoundError e); discriminate].
      unfold ret. intros [= <- <-]. left.
      now destruct (get_extracted_path_dir _ _ _ _ Hq) as (-> & Hd).
    + unfold bind at 1, is_zipfile. rewrite Hstat.
      destruct (as_zip f) as [ms|] eqn:Hzip.
      * unfold bind at 1, zipfile_open. rewrite Hstat, Hzip.
        unfold bind at 1.
        destruct (zip_extractall ms (dirname src_file) s) as [[[]|e] s1];
          [|destruct (is_FileNotFoundError e); discriminate].
        unfold bind at 1.
        destruct (get_extracted_path (dirname src_file) s1) as [[q|e] s2] eqn:Hq;
          [|destruct (is_FileNotFoundError e); discriminate].
        unfold ret. intros [= <- <-]. left.
        now destruct (get_extracted_path_dir _ _ _ _ Hq) as (-> & Hd).
      * unfold ret. intros [= <- <-]. right. repeat split. now exists f.
Qed.

(** X2.  The path [uncompress_file] returns exists in the file system it
    leaves, whatever the input: the test for existence that follows it
    in the path views cannot fail. *)
Theorem uncompress_file_result_exists (s s' : FS) (src_file p : string) :
  uncompress_file src_file s = (Ok p, s') -> exists_ s' p = true.
Proof.
  intros H. destruct (uncompress_file_result _ _ _ _ H)
    as [Hdir|(-> & -> & f & Hf & _)]; unfold exists_.
  - unfold isdir in Hdir. now destruct (stat_node s' p) as [[|f]|].
  - now rewrite Hf.
Qed.

Lemma uncompress_file_result_exists_witness :
  exists_ {| cwd := "/srv";
             nodes := nodes (samples.staged samples.tar_nested)
                      ++ [(["tmp"; "src"; "t1"; "top"], Dir);
                          (["tmp"; "src"; "t1"; "top"; "inner"], Dir);
                          (["tmp"; "src"; "t1"; "top"; "inner"; "data.csv"],
                           File (plain 10))] |}
    "/tmp/src/t1/top/inner" = true.
Proof.
  apply (uncompress_file_result_exists (samples.staged samples.tar_nested) _
           samples.upload).
  reflexivity.
Defined.

(** X3.  Staging is idempotent: staging the path that [uncompress_file]
    returned returns it again and changes nothing more. *)
Theorem uncompress_file_idempotent (s s' : FS) (src_file p : string) :
  uncompress_file src_file s = (Ok p, s') ->
  uncompress_file p s' = (Ok p, s').
Proof.
  intros H. destruct (uncompress_file_result _ _ _ _ H)
    as [Hdir|(-> & -> & f & Hf & Ht & Hz)];
    unfold uncompress_file, try_except, bind, gets.
  - now rewrite Hdir.
  - unfold isdir, is_tarfile, is_zipfile.
    rewrite Hf. cbv beta iota delta [negb].
    rewrite Hf, Ht. cbv beta iota.
    rewrite Hf, Hz. reflexivity.
Qed.

Lemma uncompress_file_idempotent_witness :
  uncompress_file "/tmp/src/t1/top/inner"
    (snd (uncompress_file samples.upload (samples.staged samples.tar_nested)))
  = (Ok "/tmp/src/t1/top/inner",
     snd (uncompress_file samples.upload (samples.staged samples.tar_nested))).
Proof.
  apply (uncompress_file_idempotent (samples.staged samples.tar_nested) _
           samples.upload).
  reflexivity.
Defined.

Lemma dirname_no_slash (p : string) : has_slash p = false -> dirname p = "".
Proof.
  intros H. unfold dirname.
  replace (upto_last_slash p) with "" by (destruct p; cbn [upto_last_slash]; now rewrite ?H).
  reflexivity.
Qed.

Lemma get_extracted_path_empty (s : FS) :
  get_extracted_path "" s = (Raise (FileNotFoundError ""), s).
Proof. reflexivity. Qed.

(** X4.  An archive referred to by a bare file name, without a directory
    part, is never staged: its directory is the empty path, which
    [os.scandir] does not accept.  A tar archive whose members were
    extracted (into the working directory) is answered 400, [File not
    found]. *)
Theorem bare_archive_never_staged (s : FS) (src_file : string) (f : file) :
  has_slash src_file = false ->
  stat_node s src_file = Some (File f) ->
  (as_tar f <> None \/ as_zip f <> None) ->
  is_ok (fst (uncompress_file src_file s)) = false
  /\ (forall members s1,
        as_tar f = Some members ->
        safe_extract members "" s = (Ok tt, s1) ->
        uncompress_file src_file s
        = (Raise (HTTPException 400 "File not found"), s1)).
Proof.
  intros Hbare Hstat Harch.
  unfold uncompress_file, try_except, bind, gets, isdir, is_tarfile, is_zipfile,
    tarfile_open, zipfile_open.
  rewrite (dirname_no_slash _ Hbare), Hstat. cbv beta iota delta [negb].
  rewrite Hstat. cbv beta iota.
  destruct (as_tar f) as [ms|] eqn:Htar; cbv beta iota.
  - rewrite Hstat, Htar. split.
    + destruct (safe_extract ms "" s) as [[[]|e] s1].
      * now rewrite get_extracted_path_empty.
      * now destruct (is_FileNotFoundError e).
    + intros members s1 [= <-] ->. now rewrite get_extracted_path_empty.
  - rewrite Hstat. split; [|discriminate].
    destruct (as_zip f) as [ms|] eqn:Hzip; [|now destruct Harch].
    cbv beta iota. rewrite Hstat, Hzip.
    destruct (zip_extractall ms "" s) as [[[]|e] s1].
    + now rewrite get_extracted_path_empty.
    + now destruct (is_FileNotFoundError e).
Qed.

Lemma bare_archive_never_staged_witness :
  is_ok (fst (uncompress_file "a.tar" samples.bare)) = false
  /\ (forall members s1,
        as_tar (samples.tar_of [samples.tar_member "x.csv"]) = Some members ->
        safe_extract members "" samples.bare = (Ok tt, s1) ->
        uncompress_file "a.tar" samples.bare
        = (Raise (HTTPException 400 "File not found"), s1)).
Proof.
  apply (bare_archive_never_staged samples.bare "a.tar"
           (samples.tar_of [samples.tar_member "x.csv"])).
  - reflexivity.
  - reflexivity.
  - left. discriminate.
Defined.

(** X5.  On a well-formed file system and for a directory [p],
    [get_subdirectories] changes nothing and lists exactly the names [d]
    that do not start with a dot and for which [p/d] is a directory. *)
Theorem get_subdirectories_lists_visible_dirs (s : FS) (p : string) :
  wf_fs s = true -> isdir s p = true ->
  exists l,
    get_subdirectories p s = (Ok l, s)
    /\ forall d,
         In d l <->
         (good_comp d = true /\ startswith d "." = false
          /\ isdir s (join p d) = true).
Proof.
  intros Hwf Hdir. unfold isdir, stat_node in Hdir.
  destruct (locate s p) as [k|] eqn:Hl; [|discriminate].
  destruct (lookup s k) as [[|f]|] eqn:Hk; try discriminate. clear Hdir.
  eexists. split; [exact (unwrapping.get_subdirectories_dir s p k Hl Hk)|].
  pose proof (wf_fs_inv s Hwf) as (Habs & Hgood & Hnd).
  assert (Hloc : forall d, good_comp d = true ->
                           locate s (join p d) = Some (k ++ [d])%list).
  { intros d Hd. pose proof (good_comp_inv _ Hd) as (Hne & _).
    unfold locate in *. rewrite (join_not_empty p _ Hne).
    destruct (p =? ""); [discriminate|]. injection Hl as <-.
    now rewrite (resolve_join _ p _ Habs Hd). }
  assert (Hlook : forall d, lookup s (k ++ [d])%list = assoc (k ++ [d])%list (nodes s)).
  { intros d. unfold lookup. destruct (k ++ [d])%list eqn:Hkd; [|reflexivity].
    now destruct k. }
  intros d. split.
  - intros Hin. apply in_map_iff in Hin as (e & <- & He).
    apply filter_In in He as [He Hf].
    apply andb_true_iff in Hf as [Hvis Hisdir].
    apply negb_true_iff in Hvis.
    apply In_entries in He as (n & Hin & Hn).
    rewrite Hisdir in Hn. destruct n; [|discriminate].
    pose proof (forallb_last _ _ (Hgood _ _ Hin)) as Hd.
    repeat split; try assumption.
    unfold isdir, stat_node. rewrite (Hloc _ Hd), Hlook.
    now rewrite (nodup_assoc _ _ _ Hnd Hin).
  - intros (Hd & Hvis & Hisdir).
    unfold isdir, stat_node in Hisdir. rewrite (Hloc _ Hd), Hlook in Hisdir.
    destruct (assoc (k ++ [d])%list (nodes s)) as [[|f]|] eqn:Ha;
      try discriminate.
    apply assoc_In in Ha.
    apply in_map_iff. exists {| name := d; is_dir := true |}.
    split; [reflexivity|]. apply filter_In. split.
    + apply in_flat_map. exists ((k ++ [d])%list, Dir). split; [exact Ha|].
      unfold entry_of. cbn [fst snd].
      now rewrite (proj2 (child_name_spec k (k ++ [d])%list d) eq_refl); left.
    + cbn [name is_dir]. now rewrite Hvis.
Qed.

Lemma get_subdirectories_lists_visible_dirs_witness :
  exists l,
    get_subdirectories "/d" samples.listing = (Ok l, samples.listing)
    /\ forall d,
         In d l <->
         (good_comp d = true /\ startswith d "." = false
          /\ isdir samples.listing (join "/d" d) = true).
Proof.
  apply get_subdirectories_lists_visible_dirs; reflexivity.
Defined.

End staging_more.

(** ** Writing to the file system *)

Module fs_facts.
Import pystr posixpath fsys utils wf path_facts notions.

Lemma assoc_app (k : key) (l l' : list (key * node)) :
  assoc k (l ++ l')
  = match assoc k l with
    | Some n => Some n
    | None => assoc k l'
    end.
Proof.
  induction l as [|[k' n'] l IH]; [reflexivity|]. cbn.
  now destruct (key_eqb k k').
Qed.

Lemma assoc_set_node_same (k : key) (n : node) (l : list (key * node)) :
  assoc k (set_node k n l) = Some n.
Proof.
  induction l as [|[k' n'] l IH]; cbn.
  - now rewrite key_eqb_refl.
  - destruct (key_eqb k k') eqn:Hk; cbn.
    + now rewrite key_eqb_refl.
    + now rewrite Hk.
Qed.

Lemma key_eqb_sym (k k' : key) : key_eqb k k' = key_eqb k' k.
Proof.
  destruct (key_eqb k k') eqn:H1, (key_eqb k' k) eqn:H2; try reflexivity.
  - apply key_eqb_eq in H1 as ->. now rewrite key_eqb_refl in H2.
  - apply key_eqb_eq in H2 as ->. now rewrite key_eqb_refl in H1.
Qed.

Lemma assoc_set_node_other (k k' : key) (n : node) (l : list (key * node)) :
  key_eqb k' k = false -> assoc k' (set_node k n l) = assoc k' l.
Proof.
  intros Hk. induction l as [|[k0 n0] l IH]; cbn.
  - now rewrite Hk.
  - destruct (key_eqb k k0) eqn:Hk0; cbn.
    + apply key_eqb_eq in Hk0 as <-. now rewrite Hk.
    + now rewrite IH.
Qed.

(** The table after [makedirs]: what was there stays, and the missing
    keys among those asked for are directories. *)
Lemma assoc_makedirs (ks : list key) (k : key) (l : list (key * node)) :
  assoc k (fold_left mkdir1 ks l)
  = match assoc k l with
    | Some n => Some n
    | None => if existsb (key_eqb k) ks then Some Dir else None
    end.
Proof.
  revert l; induction ks as [|a ks IH]; intros l; cbn [fold_left existsb].
  - now destruct (assoc k l).
  - rewrite IH. unfold mkdir1.
    destruct (assoc a l) as [na|] eqn:Ha.
    + destruct (assoc k l) eqn:Hk; [reflexivity|].
      destruct (key_eqb k a) eqn:Hka; [|reflexivity].
      apply key_eqb_eq in Hka as ->. congruence.
    + rewrite assoc_app. destruct (assoc k l) eqn:Hk; [reflexivity|].
      cbn [assoc]. destruct (key_eqb k a); reflexivity.
Qed.

Lemma lookup_assoc (s : FS) (k : key) :
  k <> [] -> lookup s k = assoc k (nodes s).
Proof. destruct k; [congruence|reflexivity]. Qed.






End fs_facts.

(** ** More on uploads, jobs and views *)

Module service_more.
Import pystr posixpath fsys utils app service wf path_facts notions effects
  lifecycle fs_facts.

(** A file that was saved is there, with the content saved. *)
Lemma save_ok (content : file) (dst : string) (s : FS) (u : unit) :
  fst (save content dst s) = Ok u ->
  cwd (snd (save content dst s)) = cwd s
  /\ stat_node (snd (save content dst s)) dst = Some (File content).
Proof.
  unfold save, write_file.
  destruct (locate s dst) as [k|] eqn:Hl; [|discriminate].
  destruct (lookup s (removelast k)) as [[|f]|]; try discriminate.
  destruct (ancestors_ok k s); cbn [negb]; [|discriminate].
  assert (Hne : lookup s k <> Some Dir -> k <> []).
  { intros H ->. now apply H. }
  assert (Hgoal : forall s',
             s' = {| cwd := cwd (makedirs_key (removelast k) s);
                     nodes := set_node k (File content)
                                (nodes (makedirs_key (removelast k) s)) |} ->
             k <> [] ->
             cwd s' = cwd s /\ stat_node s' dst = Some (File content)).
  { intros s' -> Hk. split; [reflexivity|].
    unfold stat_node.
    replace (locate _ dst) with (Some k) by (rewrite <- Hl; reflexivity).
    rewrite lookup_assoc by exact Hk. cbn [nodes].
    apply assoc_set_node_same. }
  destruct (lookup s k) as [[|f]|] eqn:Hk; cbn [fst snd]; try discriminate;
    intros _; apply Hgoal; try reflexivity; apply Hne; discriminate.
Qed.

Lemma isabs_join_abs (a b : string) : isabs a = true -> isabs (join a b) = true.
Proof.
  intros Ha. destruct (startswith b "/") eqn:Hb.
  - unfold join. now rewrite Hb.
  - now rewrite isabs_join.
Qed.

Lemma join_abs (a b : string) : isabs b = true -> join a b = b.
Proof. unfold join, isabs. now intros ->. Qed.

Lemma set_fs_same (w : World) : set_fs (fs w) w = w.
Proof. now destruct w. Qed.

Section with_externals.
Context {E : Externals}.

(** X9.  When [save_to_temp] returns, the path it returns is
    [tmp_dir/src/ticket/] followed by the secured name of the upload,
    the uploaded file is stored there, and the table and the executor
    are as before. *)
Theorem save_to_temp_stores_upload (form : Form) (tmp_dir ticket p : string)
  (w w' : World) :
  save_to_temp form tmp_dir ticket w = (Ok p, w') ->
  p = join (join3 tmp_dir "src" ticket) (secure_filename (resource_filename form))
  /\ stat_node (fs w') p = Some (File (resource_content form))
  /\ tickets w' = tickets w /\ jobs w' = jobs w /\ futures w' = futures w.
Proof.
  unfold save_to_temp, bind, lift_fs, ret.
  destruct (fst (mkdir (join3 tmp_dir "src" ticket) (fs w))); [|discriminate].
  cbn [fs set_fs].
  destruct (fst (save (resource_content form) _ _)) as [u|e] eqn:Hsave;
    [|discriminate].
  intros [= <- <-]. destruct (save_ok _ _ _ _ Hsave) as [_ Hstat].
  repeat split. exact Hstat.
Qed.

Lemma mkdir_ok (p : string) (s : FS) : fst (mkdir p s) = Ok tt.
Proof.
  unfold mkdir. destruct (locate s p); [|reflexivity].
  now destruct (lookup s _).
Qed.

(** The first half of the callback: the artifact. *)
Lemma callback_artifact (t : string) (res jt okv cmtv : pyval) (w : World) :
  res <> VNone ->
  executor_callback (Ok [VStr t; res; jt; okv; cmtv]) w
  = match fst (artifact_written t res w) with
    | Raise e => (Raise e, set_fs (snd (artifact_written t res w)) w)
    | Ok _ =>
        (get_db ;;;
         db_result <- fetchone t ;;
         time <- subscript db_result db.requested_time ;;
         filesize <- subscript db_result db.filesize ;;
         now <- gets clock ;;
         update_ticket (Some (artifact_path t (clock w))) (as_int okv)
           (elapsed now time) (as_text cmtv) t)
          (set_fs (snd (artifact_written t res w)) w)
    end.
Proof.
  intros Hres. unfold artifact_written, artifact_path.
  destruct res; try congruence;
    unfold executor_callback, bind at 1, lift_outcome;
    cbv beta iota; unfold bind at 1; unfold bind at 1; unfold gets at 1;
    cbv beta iota; unfold bind at 1; unfold lift_fs at 1;
    rewrite mkdir_ok; cbn [fst snd fs set_fs];
    unfold bind at 1, lift_fs at 1; cbn [fst snd fs set_fs];
    destruct (fst (save _ _ _)); reflexivity.
Qed.

Lemma callback_no_artifact (t : string) (jt okv cmtv : pyval) (w : World) :
  executor_callback (Ok [VStr t; VNone; jt; okv; cmtv]) w
  = (get_db ;;;
     db_result <- fetchone t ;;
     time <- subscript db_result db.requested_time ;;
     filesize <- subscript db_result db.filesize ;;
     now <- gets clock ;;
     update_ticket None (as_int okv) (elapsed now time) (as_text cmtv) t) w.
Proof. reflexivity. Qed.

(** The second half of the callback: the row. *)
Lemma callback_update (fp : option string) (okv cmtv : pyval) (t : string)
  (w w' : World) :
  (get_db ;;;
   db_result <- fetchone t ;;
   time <- subscript db_result db.requested_time ;;
   filesize <- subscript db_result db.filesize ;;
   now <- gets clock ;;
   update_ticket fp (as_int okv) (elapsed now time) (as_text cmtv) t) w
  = (Ok tt, w') ->
  exists row,
    db_error w = None
    /\ find (fun r => db.ticket r =? t) (tickets w) = Some row
    /\ w' = set_tickets
              (map (db.update_row fp (as_int okv)
                      (elapsed (clock w) (db.requested_time row))
                      (as_text cmtv) t) (tickets w)) w.
Proof.
  unfold update_ticket, subscript, fetchone, get_db, bind, modify, gets, ret,
    raise.
  destruct (db_error w) eqn:Hdb; [discriminate|].
  destruct (find (fun r => db.ticket r =? t) (tickets w)) as [row|] eqn:Hrow;
    [|discriminate].
  intros [= <-]. now exists row.
Qed.

(** What a callback that returns has done. *)
Lemma callback_inversion (t : string) (res jt okv cmtv : pyval) (w w' : World) :
  executor_callback (Ok [VStr t; res; jt; okv; cmtv]) w = (Ok tt, w') ->
  exists row fp s',
    db_error w = None
    /\ find (fun r => db.ticket r =? t) (tickets w) = Some row
    /\ w' = set_tickets
              (map (db.update_row fp (as_int okv)
                      (elapsed (clock w) (db.requested_time row))
                      (as_text cmtv) t) (tickets w))
              (set_fs s' w)
    /\ ((res = VNone /\ fp = None /\ s' = fs w)
        \/ (res <> VNone
            /\ fp = Some (artifact_path t (clock w))
            /\ fst (artifact_written t res w) = Ok tt
            /\ s' = snd (artifact_written t res w))).
Proof.
  intros H.
  assert (Hres : res = VNone \/ res <> VNone)
    by (destruct res; (now left) || (right; discriminate)).
  destruct Hres as [->|Hres].
  - rewrite callback_no_artifact in H.
    destruct (callback_update _ _ _ _ _ _ H) as (row & Hdb & Hrow & ->).
    exists row, None, (fs w). rewrite set_fs_same. repeat split; try assumption.
    now left.
  - rewrite (callback_artifact _ _ _ _ _ _ Hres) in H.
    destruct (fst (artifact_written t res w)) as [[]|e] eqn:Hart; [|discriminate].
    destruct (callback_update _ _ _ _ _ _ H) as (row & Hdb & Hrow & ->).
    exists row, (Some (artifact_path t (clock w))), (snd (artifact_written t res w)).
    repeat split; try assumption. right. now repeat split.
Qed.

(** X14.  With an absolute output directory, the result a callback has
    written is the one the resource view serves: after a callback
    returned for a tuple that carries a JSON document, the artifact is a
    file at [OUTPUT_DIR/<yymmdd>/<ticket>/result.json] and [GET
    /resource/<ticket>] answers 200 with that file. *)
Theorem artifact_round_trip (t doc : string) (jt : pyval) (success : Z)
  (comment : option string) (w w' : World) :
  isabs OUTPUT_DIR = true ->
  executor_callback
    (Ok [VStr t; VJson doc; jt; VInt success; py_text comment]) w
  = (Ok tt, w') ->
  stat_node (fs w') (artifact_path t (clock w))
  = Some (File (plain (Z.of_nat (String.length doc))))
  /\ resource t w'
     = (Ok {| resp_body := Attachment (artifact_path t (clock w));
              status_code := 200 |}, w').
Proof.
  intros Habs H.
  destruct (callback_inversion _ _ _ _ _ _ _ H)
    as (row & fp & s' & Hdb & Hrow & -> & [[[=] _]|(_ & -> & Hart & ->)]).
  destruct (save_ok _ _ _ _ Hart) as [_ Hstat].
  split; [exact Hstat|].
  pose proof (find_some _ _ Hrow) as [_ Hkey]. apply String.eqb_eq in Hkey.
  rewrite (views.resource_artifact t _
             (db.update_row (Some (artifact_path t (clock w)))
                (as_int (VInt success))
                (elapsed (clock w) (db.requested_time row))
                (as_text (py_text comment)) t row)
             (artifact_path t (clock w))).
  - rewrite join_abs by (apply isabs_join_abs, isabs_join_abs, Habs).
    unfold isfile. cbn [fs set_tickets set_fs].
    unfold artifact_written. now rewrite Hstat.
  - exact Hdb.
  - cbn [tickets set_tickets]. now rewrite find_update_row, Hrow.
  - unfold db.update_row. now rewrite Hkey, String.eqb_refl.
Qed.


(** X17.  The artifact is written before the row is updated: when the
    JSON document of a result cannot be written, the callback raises
    what the write raised and the table is left as it was, the ticket
    staying pending although its computation succeeded. *)
Theorem unwritable_artifact_leaves_row (t doc : string) (jt okv cmtv : pyval)
  (w : World) (e : exn) :
  fst (artifact_written t (VJson doc) w) = Raise e ->
  fst (executor_callback (Ok [VStr t; VJson doc; jt; okv; cmtv]) w) = Raise e
  /\ tickets (snd (executor_callback (Ok [VStr t; VJson doc; jt; okv; cmtv]) w))
     = tickets w.
Proof.
  intros Hart.
  rewrite (callback_artifact t (VJson doc) jt okv cmtv w) by discriminate.
  rewrite Hart. now split.
Qed.

(** X16.  [enqueue] reads the size of its input and connects to the
    store before its [INSERT], outside its [try]: when the input has
    vanished or the store cannot be reached it raises, no row is
    created, and the callback only raises the same exception again. *)
Theorem enqueue_fails_before_insert (ticket src_path : string) (form : Form)
  (job_type : JobType) (w : World) :
  (stat_node (fs w) src_path = None
   \/ (exists m, db_error w = Some m)) ->
  exists e,
    enqueue ticket src_path form job_type w = (Raise e, w)
    /\ forall w2, executor_callback (Raise e) w2 = (Raise e, w2).
Proof.
  intros Hcause.
  assert (Hq : exists e, enqueue ticket src_path form job_type w
                         = (Raise e, set_fs (fs w) w)).
  { unfold enqueue, bind at 1, lift_fs, stat_size.
    destruct (stat_node (fs w) src_path) as [[|f]|] eqn:Hstat; cbn [fst snd];
      [| |now eexists];
      (destruct Hcause as [|[m Hm]]; [discriminate|]);
      unfold bind at 1, get_db; cbn [db_error fs set_fs]; rewrite Hm;
      now eexists. }
  destruct Hq as [e Hq]. exists e. rewrite Hq, set_fs_same. now split.
Qed.

End with_externals.

Lemma artifact_round_trip_witness :
  stat_node (fs samples.world_done) "/out/261103/ticket-/result.json"
  = Some (File (plain 2))
  /\ @resource samples.demo "ticket-" samples.world_done
     = (Ok {| resp_body := Attachment "/out/261103/ticket-/result.json";
              status_code := 200 |}, samples.world_done).
Proof.
  apply (@artifact_round_trip samples.demo "ticket-" "{}"
           (VJobType KMEANS) 1 None
           (set_futures [] samples.world_running) samples.world_done).
  - reflexivity.
  - reflexivity.
Defined.


Lemma unwritable_artifact_leaves_row_witness :
  fst (@executor_callback samples.demo
         (Ok [VStr "ticket-"; VJson "{}"; VJobType KMEANS; VInt 1; VNone])
         (set_fs samples.disk_result_taken samples.world_running))
  = Raise IsADirectoryError
  /\ tickets (snd (@executor_callback samples.demo
                     (Ok [VStr "ticket-"; VJson "{}"; VJobType KMEANS; VInt 1;
                          VNone])
                     (set_fs samples.disk_result_taken samples.world_running)))
     = tickets (set_fs samples.disk_result_taken samples.world_running).
Proof.
  apply (@unwritable_artifact_leaves_row samples.demo "ticket-" "{}"
           (VJobType KMEANS) (VInt 1) VNone
           (set_fs samples.disk_result_taken samples.world_running)).
  reflexivity.
Defined.

Lemma enqueue_fails_before_insert_witness :
  exists e,
    @enqueue samples.demo "ticket-" "/data/gone.csv"
      (samples.form_for "deferred") KMEANS samples.world0
    = (Raise e, samples.world0)
    /\ forall w2, @executor_callback samples.demo (Raise e) w2 = (Raise e, w2).
Proof.
  apply (@enqueue_fails_before_insert samples.demo).
  left. reflexivity.
Defined.

Section more_views.
Context {E : Externals}.

(** What staging returns exists. *)
Lemma stage_upload_exists (form : Form) (w w1 : World) (ticket p : string) :
  stage_upload form w = (Ok (ticket, p), w1) -> exists_ (fs w1) p = true.
Proof.
  unfold stage_upload, bind at 1.
  destruct (get_tmp_dir _ w) as [[tmp_dir|e] wa]; [|discriminate].
  unfold bind at 1. destruct (create_ticket wa) as [[t|e] wb]; [|discriminate].
  unfold bind at 1.
  destruct (save_to_temp form tmp_dir t wb) as [[q|e] wc]; [|discriminate].
  unfold bind, lift_fs, ret.
  destruct (uncompress_file q (fs wc)) as [[p'|e] s'] eqn:Hun; cbn [fst snd];
    [|discriminate].
  intros [= _ <- <-]. cbn [fs set_fs].
  destruct (staging_more.uncompress_file_result _ _ _ _ Hun)
    as [Hdir|(-> & -> & f & Hf & _)]; unfold exists_.
  - unfold isdir in Hdir. now destruct (stat_node s' p') as [[|f]|].
  - now rewrite Hf.
Qed.

(** X8.  Whatever request is answered with 202 was a submission, and
    the job it handed to the executor carries the ticket named in the
    answer and an input path that exists when the answer is given. *)
Theorem accepted_job_input_exists (r : Request) (w w' : World)
  (resp : Response) :
  dispatch r w = (Ok resp, w') ->
  status_code resp = 202%Z ->
  exists job_type form p,
    (r = PostFile job_type form \/ r = PostPath job_type form)
    /\ jobs w' = (jobs w ++ [job_for (uuid4 (uuids w)) p form job_type])%list
    /\ exists_ (fs w') p = true
    /\ resp_body resp = ticket_links (uuid4 (uuids w)).
Proof.
  destruct r as [jt form|jt form|t|t|]; cbn [dispatch].
  - rewrite submission.file_view_staged. unfold bind at 1, validate_form.
    destruct (validate_on_submit form); cbn [negb]; [|discriminate].
    unfold ret at 1. unfold bind at 1.
    destruct (stage_upload form w) as [[[ticket p]|e] w1] eqn:Hstage;
      [|discriminate].
    cbn [fst snd].
    destruct (submission.stage_upload_effect _ _ _ _ _ Hstage)
      as (-> & _ & _ & Hjobs).
    pose proof (stage_upload_exists _ _ _ _ _ Hstage) as Hex.
    destruct (response_data form =? "prompt").
    + unfold bind, call, make_response, ret.
      destruct (model_of jt form p (fs w1)); [|discriminate].
      intros [= <- <-]. discriminate.
    + unfold bind, submit, modify, make_response, ret.
      intros [= <- <-] _. exists jt, form, p. cbn [jobs set_jobs fs].
      rewrite Hjobs. repeat split; auto.
  - unfold path_view, validate_form, bind at 1.
    destruct (validate_on_submit form); cbn [negb]; [|discriminate].
    unfold ret at 1. unfold bind at 1, lift_fs.
    destruct (uncompress_file (resource_data form) (fs w)) as [[p|e] s1] eqn:Hun;
      cbn [fst snd]; [|discriminate].
    unfold bind at 1, gets. cbn [fs set_fs].
    destruct (exists_ s1 p) eqn:Hex; cbn [negb];
      [|unfold bind, abort, raise; discriminate].
    unfold bind at 1, ret at 1.
    destruct (response_data form =? "prompt").
    + unfold bind, call, make_response, ret. cbn [fs set_fs].
      destruct (model_of jt form p s1); [|discriminate].
      intros [= <- <-]. discriminate.
    + unfold bind, create_ticket, submit, modify, make_response, ret.
      intros [= <- <-] _. exists jt, form, p. repeat split; auto.
  - unfold status, bind, get_db, fetchone, gets, make_response, ret.
    split_outcomes; intros [= <- <-]; discriminate.
  - unfold resource, bind, get_db, fetchone, gets, subscript, make_response,
      ret, raise.
    split_outcomes; intros [= <- <-]; discriminate.
  - unfold health_check, bind, attempt, make_response, ret.
    split_outcomes; intros [= <- <-]; discriminate.
Qed.

(** X10.  A form that does not validate is answered with 400 and the
    errors of the form by every submission view, before anything is
    staged: no directory is made, no file saved, no ticket drawn and no
    job submitted. *)
Theorem invalid_form_rejected (job_type : JobType) (form : Form) (w : World) :
  validate_on_submit form = false ->
  dispatch (PostFile job_type form) w
  = (Raise (HTTPException 400 (errors form)), w)
  /\ dispatch (PostPath job_type form) w
     = (Raise (HTTPException 400 (errors form)), w).
Proof.
  intros Hinvalid. cbn [dispatch].
  unfold file_view, path_view, bind, validate_form. now rewrite Hinvalid.
Qed.


(** X13.  In every state the service reaches, and while the store can be
    reached, the resource of a ticket whose row is pending is answered
    with 404 [Not found.]: no result is served before the callback of
    the ticket has run. *)
Theorem pending_ticket_has_no_resource (w : World) (t : string) (row : db.Row) :
  reachable w ->
  db_error w = None ->
  find (fun r => db.ticket r =? t) (tickets w) = Some row ->
  db.status row = 0%Z ->
  resource t w
  = (Ok {| resp_body := Text "Not found."; status_code := 404 |}, w).
Proof.
  intros Hreach Hdb Hrow Hst.
  apply (views.resource_no_result t w row Hdb Hrow).
  pose proof (find_some _ _ Hrow) as [Hin _].
  destruct (rows_ok_reachable w Hreach row Hin)
    as [_ [(_ & _ & Hres & _)|(Hone & _)]]; [exact Hres|congruence].
Qed.

Section unique_tickets.
Hypothesis uuid4_unique : forall i j, uuid4 i = uuid4 j -> i = j.



End unique_tickets.
End more_views.

Lemma save_to_temp_stores_upload_witness :
  "/tmp/clustering_outliers/src/ticket-/points.csv"
  = join (join3 "/tmp/clustering_outliers" "src" "ticket-")
      (@secure_filename samples.demo
         (resource_filename (samples.form_for "deferred")))
  /\ stat_node
       (fs (snd (@save_to_temp samples.demo (samples.form_for "deferred")
                   "/tmp/clustering_outliers" "ticket-" samples.world0)))
       "/tmp/clustering_outliers/src/ticket-/points.csv"
     = Some (File (resource_content (samples.form_for "deferred")))
  /\ tickets (snd (@save_to_temp samples.demo (samples.form_for "deferred")
                     "/tmp/clustering_outliers" "ticket-" samples.world0))
     = tickets samples.world0
  /\ jobs (snd (@save_to_temp samples.demo (samples.form_for "deferred")
                  "/tmp/clustering_outliers" "ticket-" samples.world0))
     = jobs samples.world0
  /\ futures (snd (@save_to_temp samples.demo (samples.form_for "deferred")
                     "/tmp/clustering_outliers" "ticket-" samples.world0))
     = futures samples.world0.
Proof.
  apply (@save_to_temp_stores_upload samples.demo (samples.form_for "deferred")
           "/tmp/clustering_outliers" "ticket-"
           "/tmp/clustering_outliers/src/ticket-/points.csv" samples.world0).
  reflexivity.
Defined.

Lemma accepted_job_input_exists_witness :
  exists job_type form p,
    (service.PostPath KMEANS (samples.form_for "deferred")
     = service.PostFile job_type form
     \/ service.PostPath KMEANS (samples.form_for "deferred")
        = service.PostPath job_type form)
    /\ jobs (snd (@dispatch samples.demo
                    (service.PostPath KMEANS (samples.form_for "deferred"))
                    samples.world0))
       = (jobs samples.world0
          ++ [job_for (@uuid4 samples.demo (uuids samples.world0)) p form
                job_type])%list
    /\ exists_ (fs (snd (@dispatch samples.demo
                           (service.PostPath KMEANS (samples.form_for "deferred"))
                           samples.world0))) p = true
    /\ resp_body {| resp_body := ticket_links "ticket-"; status_code := 202 |}
       = ticket_links (@uuid4 samples.demo (uuids samples.world0)).
Proof.
  apply (@accepted_job_input_exists samples.demo
           (service.PostPath KMEANS (samples.form_for "deferred"))
           samples.world0).
  - reflexivity.
  - reflexivity.
Defined.

Lemma invalid_form_rejected_witness :
  @dispatch samples.demo
    (service.PostFile DBSCAN
       {| validate_on_submit := false; errors := "resource: required";
          resource_data := ""; resource_filename := "";
          resource_content := plain 0; response_data := "prompt";
          parameters := "" |}) samples.world0
  = (Raise (HTTPException 400 "resource: required"), samples.world0)
  /\ @dispatch samples.demo
       (service.PostPath DBSCAN
          {| validate_on_submit := false; errors := "resource: required";
             resource_data := ""; resource_filename := "";
             resource_content := plain 0; response_data := "prompt";
             parameters := "" |}) samples.world0
     = (Raise (HTTPException 400 "resource: required"), samples.world0).
Proof.
  apply (@invalid_form_rejected samples.demo DBSCAN
           {| validate_on_submit := false; errors := "resource: required";
              resource_data := ""; resource_filename := "";
              resource_content := plain 0; response_data := "prompt";
              parameters := "" |} samples.world0).
  reflexivity.
Defined.


Lemma pending_ticket_has_no_resource_witness :
  @resource samples.demo "ticket-" samples.world_running
  = (Ok {| resp_body := Text "Not found."; status_code := 404 |},
     samples.world_running).
Proof.
  apply (@pending_ticket_has_no_resource samples.demo samples.world_running
           "ticket-" (db.new_row "ticket-" 120 1000000)).
  - exact ticketing.world_running_reachable.
  - reflexivity.
  - reflexivity.
  - reflexivity.
Defined.


End service_more.

(** ** Resolving paths *)

Module path_more.
Import pystr posixpath fsys utils wf path_facts notions.

(** *** [split] and [join] *)

Lemma split_parts (s : string) : Forall (fun c => has_slash c = false) (split s).
Proof.
  induction s as [|c s IH]; cbn [split].
  - now constructor.
  - destruct (Ascii.eqb c slash) eqn:Hc.
    + now constructor.
    + destruct (split s) as [|w ws] eqn:Hs; [now destruct (split_nonempty s)|].
      inversion IH as [|? ? Hw Hws]; subst.
      constructor; [|exact Hws]. cbn [has_slash]. now rewrite Hc.
Qed.

Lemma split_join (cs : list string) :
  cs <> [] -> Forall (fun c => has_slash c = false) cs ->
  split (pystr.join cs) = cs.
Proof.
  induction cs as [|c cs IH]; [congruence|]. intros _ H.
  inversion H as [|? ? Hc Hcs]; subst.
  destruct cs as [|c' cs].
  - cbn [pystr.join]. now apply split_no_slash.
  - change (pystr.join (c :: c' :: cs))
      with (c ++ String slash (pystr.join (c' :: cs))).
    rewrite split_app_slash, (split_no_slash c Hc), IH by (congruence || assumption).
    reflexivity.
Qed.

Lemma split_slashes (n : nat) (s : string) :
  split (slashes n ++ s) = (repeat "" n ++ split s)%list.
Proof.
  induction n as [|n IH]; [reflexivity|].
  cbn [slashes append split repeat app]. rewrite Ascii.eqb_refl. now rewrite IH.
Qed.

Lemma fold_empties (r : bool) (n : nat) (st : list string) :
  fold_left (norm_step r) (repeat "" n) st = st.
Proof. induction n as [|n IH]; [reflexivity|exact IH]. Qed.

Lemma fold_goods (r : bool) (cs st : list string) :
  forallb good_comp cs = true ->
  fold_left (norm_step r) cs st = (st ++ cs)%list.
Proof.
  revert st; induction cs as [|c cs IH]; intros st H; cbn [fold_left].
  - now rewrite app_nil_r.
  - cbn [forallb] in H. apply andb_true_iff in H as [Hc Hcs].
    rewrite norm_step_good by exact Hc. rewrite IH by exact Hcs.
    now rewrite <- app_assoc.
Qed.


Lemma last_is_dotdot_snoc (st : list string) (y : string) :
  last_is_dotdot (st ++ [y]) = (y =? "..").
Proof. unfold last_is_dotdot. now rewrite rev_unit. Qed.

Lemma forallb_removelast {A} (f : A -> bool) (l : list A) :
  forallb f l = true -> forallb f (removelast l) = true.
Proof.
  induction l as [|a l IH]; [trivial|]. cbn [forallb removelast].
  intros H. apply andb_true_iff in H as [Ha Hl].
  destruct l as [|b l]; [reflexivity|].
  cbn [forallb]. rewrite Ha. now apply IH.
Qed.

Lemma forallb_snoc {A} (f : A -> bool) (l : list A) (a : A) :
  forallb f (l ++ [a]) = forallb f l && f a.
Proof. rewrite forallb_app. cbn. now rewrite andb_true_r. Qed.

Lemma last_is_dotdot_good (st : list string) :
  forallb good_comp st = true -> last_is_dotdot st = false.
Proof.
  destruct st as [|a st] using rev_ind; [reflexivity|].
  rewrite forallb_snoc, last_is_dotdot_snoc. intros H.
  apply andb_true_iff in H as [_ Ha].
  now apply good_comp_inv in Ha as (_ & _ & Ha & _).
Qed.

(** The components an absolute path normalises to are entry names. *)
Lemma norm_step_rooted_good (st : list string) (c : string) :
  has_slash c = false ->
  forallb good_comp st = true ->
  forallb good_comp (norm_step true st c) = true.
Proof.
  intros Hc Hst. unfold norm_step.
  destruct (c =? "") eqn:H1; [exact Hst|].
  destruct (c =? ".") eqn:H2; [exact Hst|]. cbn [orb].
  destruct (c =? "..") eqn:H3; cbn [negb orb andb].
  - rewrite (last_is_dotdot_good st Hst). now apply forallb_removelast.
  - rewrite forallb_snoc, Hst. unfold good_comp. now rewrite H1, H2, H3, Hc.
Qed.

Lemma fold_rooted_good (cs st : list string) :
  Forall (fun c => has_slash c = false) cs ->
  forallb good_comp st = true ->
  forallb good_comp (fold_left (norm_step true) cs st) = true.
Proof.
  intros H. revert st. induction H as [|c cs Hc _ IH]; intros st Hst; [exact Hst|].
  cbn [fold_left]. apply IH. now apply norm_step_rooted_good.
Qed.

Lemma norm_step_proper (r : bool) (st : list string) (c : string) :
  has_slash c = false ->
  forallb proper_comp st = true ->
  forallb proper_comp (norm_step r st c) = true.
Proof.
  intros Hc Hst. unfold norm_step.
  destruct (c =? "") eqn:H1; [exact Hst|].
  destruct (c =? ".") eqn:H2; [exact Hst|]. cbn [orb].
  match goal with |- context [if ?b then _ else _] => destruct b end.
  - rewrite forallb_snoc, Hst. unfold proper_comp. now rewrite H1, H2, Hc.
  - now apply forallb_removelast.
Qed.

Lemma fold_proper (r : bool) (cs st : list string) :
  Forall (fun c => has_slash c = false) cs ->
  forallb proper_comp st = true ->
  forallb proper_comp (fold_left (norm_step r) cs st) = true.
Proof.
  intros H. revert st. induction H as [|c cs Hc _ IH]; intros st Hst; [exact Hst|].
  cbn [fold_left]. apply IH. now apply norm_step_proper.
Qed.

(** Normalising a relative path first, and resolving the result against
    a directory, is resolving the path against that directory. *)
Lemma fold_rooted_unrooted (cs st0 : list string) :
  Forall (fun c => has_slash c = false) cs ->
  fold_left (norm_step true) (fold_left (norm_step false) cs []) st0
  = fold_left (norm_step true) cs st0.
Proof.
  induction cs as [|x cs IH] using rev_ind; intros H; [reflexivity|].
  apply Forall_app in H as [Hcs Hx]. inversion Hx as [|? ? Hx' _]; subst.
  rewrite !fold_left_app. cbn [fold_left]. rewrite <- (IH Hcs).
  pose proof (fold_proper false cs [] Hcs eq_refl) as HU.
  set (U := fold_left (norm_step false) cs []) in *.
  remember (norm_step false U x) as V eqn:HV. unfold norm_step in HV.
  destruct ((x =? "") || (x =? ".")) eqn:H12.
  { subst V. unfold norm_step. now rewrite H12. }
  destruct (x =? "..") eqn:H3; cbn [negb orb andb] in HV.
  2:{ subst V. rewrite fold_left_app. reflexivity. }
  apply String.eqb_eq in H3 as ->.
  destruct U as [|y U' _] using rev_ind.
  { subst V. reflexivity. }
  rewrite last_is_dotdot_snoc in HV.
  replace (match (U' ++ [y])%list with [] => true | _ :: _ => false end)
    with false in HV by now destruct U'.
  cbn [orb] in HV.
  destruct (y =? "..") eqn:Hy.
  { subst V. rewrite fold_left_app. reflexivity. }
  rewrite removelast_last in HV. subst V.
  rewrite fold_left_app. cbn [fold_left].
  rewrite forallb_snoc in HU. apply andb_true_iff in HU as [_ Hy'].
  unfold proper_comp in Hy'.
  apply andb_true_iff in Hy' as [Hy' Hy3].
  apply andb_true_iff in Hy' as [Hy1 Hy2].
  apply negb_true_iff in Hy1, Hy2, Hy3.
  rewrite (norm_step_good true _ y)
    by (unfold good_comp; now rewrite Hy1, Hy2, Hy, Hy3).
  unfold norm_step. cbn [String.eqb Ascii.eqb Bool.eqb orb negb andb].
  rewrite last_is_dotdot_snoc, Hy. now rewrite removelast_last.
Qed.


(** Resolving a path against an absolute working directory: the loop of
    [normpath] runs over the components of the path, from the root or
    from the working directory. *)
Lemma resolve_fold (cwd p : string) :
  isabs cwd = true ->
  norm_comps (absolute cwd p)
  = fold_left (norm_step true) (split p)
      (if isabs p then [] else norm_comps cwd).
Proof.
  intros Hcwd. unfold absolute. destruct (isabs p) eqn:Hp; unfold norm_comps.
  - now rewrite rooted_isabs, Hp.
  - rewrite !rooted_isabs, (isabs_join cwd p Hp), Hcwd.
    rewrite (fold_join true cwd p [] Hp). now rewrite fold_left_app.
Qed.

Lemma join_head (y : string) (U : list string) :
  exists rest, pystr.join (y :: U) = y ++ rest.
Proof.
  destruct U as [|z U].
  - exists "". cbn. now rewrite append_empty_r.
  - now eexists.
Qed.

Lemma proper_head (y rest : string) :
  proper_comp y = true ->
  (y ++ rest =? "") = false /\ isabs (y ++ rest) = false.
Proof.
  unfold proper_comp. intros H.
  apply andb_true_iff in H as [H H3]. apply andb_true_iff in H as [H1 _].
  apply negb_true_iff in H1, H3.
  destruct y as [|c y]; [discriminate|]. split; [reflexivity|].
  unfold isabs. cbn [append]. rewrite startswith_cons.
  cbn [has_slash] in H3. now apply orb_false_iff in H3 as [-> _].
Qed.

Lemma proper_no_slash (U : list string) :
  forallb proper_comp U = true -> Forall (fun c => has_slash c = false) U.
Proof.
  intros H. apply Forall_forall. intros c Hc.
  rewrite forallb_forall in H. specialize (H c Hc). unfold proper_comp in H.
  apply andb_true_iff in H as [_ H]. now apply negb_true_iff in H.
Qed.

Lemma good_proper (U : list string) :
  forallb good_comp U = true -> forallb proper_comp U = true.
Proof.
  rewrite !forallb_forall. intros H c Hc.
  destruct (good_comp_inv c (H c Hc)) as (H1 & H2 & _ & H4).
  unfold proper_comp. now rewrite H1, H2, H4.
Qed.

Lemma fold_dot (r : bool) (U st : list string) :
  fold_left (norm_step r) (split (if pystr.join U =? "" then "." else pystr.join U)) st
  = fold_left (norm_step r) (split (pystr.join U)) st.
Proof.
  destruct (pystr.join U =? "") eqn:H; [|reflexivity].
  apply String.eqb_eq in H. now rewrite H.
Qed.

(** [normpath] does not change what a path resolves to. *)
Lemma resolve_normpath (cwd p : string) :
  isabs cwd = true ->
  norm_comps (absolute cwd (normpath p)) = norm_comps (absolute cwd p).
Proof.
  intros Hcwd. rewrite !resolve_fold by exact Hcwd. unfold normpath.
  destruct (p =? "") eqn:Hp.
  { apply String.eqb_eq in Hp as ->. reflexivity. }
  pose proof (split_parts p) as Hparts.
  destruct (isabs p) eqn:Habs.
  - assert (Hn : exists n, initial_slashes p = S n).
    { unfold initial_slashes. unfold isabs in Habs. rewrite Habs.
      destruct (startswith p "//" && negb (startswith p "///")); now eexists. }
    destruct Hn as [n Hn]. rewrite Hn.
    assert (HU : forallb good_comp (norm_comps p) = true).
    { unfold norm_comps. rewrite rooted_isabs, Habs. now apply fold_rooted_good. }
    assert (Hfold : norm_comps p = fold_left (norm_step true) (split p) []).
    { unfold norm_comps. now rewrite rooted_isabs, Habs. }
    rewrite <- Hfold.
    cbn [slashes append String.eqb]. unfold isabs at 1. rewrite startswith_cons.
    change (Ascii.eqb slash slash) with true. cbv iota.
    change (String slash (slashes n ++ pystr.join (norm_comps p)))
      with (slashes (S n) ++ pystr.join (norm_comps p)).
    rewrite split_slashes, fold_left_app, fold_empties.
    destruct (norm_comps p) as [|y U] eqn:HUeq; [reflexivity|].
    rewrite split_join;
      [|discriminate|now apply proper_no_slash, good_proper].
    now rewrite fold_goods.
  - assert (Hn : initial_slashes p = 0).
    { unfold initial_slashes. unfold isabs in Habs. now rewrite Habs. }
    assert (Hnc : norm_comps p = fold_left (norm_step false) (split p) []).
    { unfold norm_comps. now rewrite Hn. }
    rewrite Hn, Hnc. cbn [slashes append].
    set (U := fold_left (norm_step false) (split p) []).
    pose proof (fold_proper false (split p) [] Hparts eq_refl) as HU.
    fold U in HU.
    rewrite <- (fold_rooted_unrooted (split p) _ Hparts). fold U.
    destruct U as [|y U'] eqn:HUeq; [reflexivity|].
    cbn [forallb] in HU. apply andb_true_iff in HU as [Hy HU'].
    destruct (join_head y U') as [rest Hrest]. rewrite Hrest.
    destruct (proper_head y rest Hy) as [Hne Hrel]. rewrite Hne, Hrel.
    rewrite <- Hrest. rewrite split_join; [reflexivity|discriminate|].
    apply proper_no_slash. cbn [forallb]. now rewrite Hy, HU'.
Qed.

(** Joining entry names to a path appends them to what it resolves to. *)
Lemma resolve_join_comps (cwd path : string) (cs : list string) :
  isabs cwd = true ->
  forallb good_comp cs = true ->
  norm_comps (absolute cwd (join path (pystr.join cs)))
  = (norm_comps (absolute cwd path) ++ cs)%list.
Proof.
  intros Hcwd Hcs.
  assert (Harc : startswith (pystr.join cs) "/" = false).
  { destruct cs as [|y U]; [reflexivity|].
    destruct (join_head y U) as [rest ->].
    cbn [forallb] in Hcs. apply andb_true_iff in Hcs as [Hy _].
    assert (Hp : proper_comp y = true).
    { apply good_comp_inv in Hy as (H1 & H2 & _ & H4).
      unfold proper_comp. now rewrite H1, H2, H4. }
    exact (proj2 (proper_head y rest Hp)). }
  rewrite !resolve_fold by exact Hcwd.
  rewrite (isabs_join path _ Harc), fold_join by exact Harc.
  rewrite fold_left_app.
  destruct cs as [|y U]; [cbn; now rewrite app_nil_r|].
  rewrite split_join;
    [|discriminate|now apply proper_no_slash, good_proper].
  now apply fold_goods.
Qed.

Lemma zip_arcname_good (m : ZipInfo) :
  forallb good_comp
    (filter (fun x => negb (invalid_path_part x)) (split (zip_filename m)))
  = true.
Proof.
  apply forallb_forall. intros c Hc. apply filter_In in Hc as [Hin Hc].
  pose proof (split_parts (zip_filename m)) as H.
  rewrite Forall_forall in H. specialize (H c Hin).
  unfold invalid_path_part in Hc. apply negb_true_iff in Hc.
  apply orb_false_iff in Hc as [Hc H3]. apply orb_false_iff in Hc as [H1 H2].
  unfold good_comp. now rewrite H1, H2, H3, H.
Qed.

(** Where a zip member is written: below the destination directory, at
    the components of its name that are not empty, [.] or [..]. *)
Lemma zip_target_below (s : FS) (path : string) (m : ZipInfo) :
  isabs (cwd s) = true ->
  zip_target s path m
  = (norm_comps (absolute (cwd s) path)
     ++ filter (fun x => negb (invalid_path_part x)) (split (zip_filename m)))%list.
Proof.
  intros Hcwd. unfold zip_target, zip_arcname.
  rewrite resolve_normpath by exact Hcwd.
  apply resolve_join_comps; [exact Hcwd|apply zip_arcname_good].
Qed.

End path_more.

(** ** Where archives are extracted *)

Module confinement.
Import pystr posixpath fsys utils wf path_facts fs_facts staging_more path_more notions.

Lemma confined_refl (d : key) (s : FS) : confined d s s.
Proof. split; [reflexivity|]. intros q _. now left. Qed.

Lemma confined_trans (d : key) (s1 s2 s3 : FS) :
  confined d s1 s2 -> confined d s2 s3 -> confined d s1 s3.
Proof.
  intros [Hc1 H1] [Hc2 H2]. split; [congruence|].
  intros q Hq. destruct (H1 q Hq) as [E1|(N1 & D1 & B1)],
    (H2 q Hq) as [E2|(N2 & D2 & B2)].
  - left. congruence.
  - right. repeat split; congruence.
  - right. repeat split; congruence.
  - congruence.
Qed.

Lemma prefixes_below (k q : key) : In q (prefixes k) -> below q k.
Proof.
  revert q; induction k as [|c k IH]; intros q; cbn [prefixes In]; [easy|].
  intros [<-|H].
  - now exists k.
  - apply in_map_iff in H as (q' & <- & Hq').
    destruct (IH q' Hq') as [suf ->]. now exists suf.
Qed.

Lemma removelast_below (k : key) : below (removelast k) k.
Proof.
  destruct k as [|c k] using rev_ind; [now exists []|].
  rewrite removelast_last. now exists [c].
Qed.

Lemma below_trans (a b c : key) : below a b -> below b c -> below a c.
Proof. intros [x ->] [y ->]. exists (x ++ y)%list. now rewrite app_assoc. Qed.

(** Two keys above the same key are one above the other. *)
Lemma below_comparable (d q k : key) :
  below d k -> below q k -> below d q \/ below q d.
Proof.
  revert q k; induction d as [|c d IH]; intros q k Hd Hq.
  - left. now exists q.
  - destruct q as [|c' q]; [right; now exists (c :: d)|].
    destruct Hd as [x ->], Hq as [y Hy]. cbn [app] in Hy.
    injection Hy as <- Hy.
    destruct (IH q (d ++ x)%list) as [[z ->]|[z ->]].
    + now exists x.
    + now exists y.
    + left. now exists z.
    + right. now exists z.
Qed.

Lemma existsb_prefixes (q k : key) :
  existsb (key_eqb q) (prefixes k) = true -> below q k.
Proof.
  intros H. apply existsb_exists in H as (q' & Hin & Heq).
  apply key_eqb_eq in Heq as ->. now apply prefixes_below.
Qed.

(** Creating [k] and its ancestors, for [k] below [d]. *)
Lemma makedirs_confined (d k : key) (s : FS) :
  below d k -> confined d s (makedirs_key k s).
Proof.
  intros Hk. split; [reflexivity|]. intros q Hq.
  destruct q as [|c q]; [now left|].
  unfold lookup, makedirs_key. cbn [nodes]. rewrite assoc_makedirs.
  destruct (assoc (c :: q) (nodes s)); [now left|].
  destruct (existsb (key_eqb (c :: q)) (prefixes k)) eqn:Hex; [|now left].
  right. repeat split.
  destruct (below_comparable d (c :: q) k Hk (existsb_prefixes _ _ Hex));
    [contradiction|assumption].
Qed.

Lemma make_dir_confined (d k : key) (s : FS) :
  below d k -> confined d s (snd (make_dir k s)).
Proof.
  intros Hk. unfold make_dir.
  destruct (ancestors_ok k s); cbn [negb]; [|apply confined_refl].
  destruct (lookup s k); cbn [snd]; [apply confined_refl|].
  now apply makedirs_confined.
Qed.

Lemma write_file_confined (d k : key) (f : file) (s : FS) :
  below d k -> confined d s (snd (write_file k f s)).
Proof.
  intros Hk. unfold write_file.
  destruct (ancestors_ok k s); cbn [negb]; [|apply confined_refl].
  assert (Hw : confined d s
                 {| cwd := cwd (makedirs_key (removelast k) s);
                    nodes := set_node k (File f)
                               (nodes (makedirs_key (removelast k) s)) |}).
  { split; [reflexivity|]. intros q Hq.
    destruct q as [|c q]; [now left|].
    assert (Hneq : key_eqb (c :: q) k = false).
    { destruct (key_eqb (c :: q) k) eqn:Heq; [|reflexivity].
      apply key_eqb_eq in Heq. now subst k. }
    unfold lookup, makedirs_key. cbn [nodes].
    rewrite !assoc_set_node_other by exact Hneq. rewrite assoc_makedirs.
    destruct (assoc (c :: q) (nodes s)); [now left|].
    destruct (existsb (key_eqb (c :: q)) (prefixes (removelast k))) eqn:Hex;
      [|now left].
    right. repeat split.
    pose proof (below_trans _ _ _ (existsb_prefixes _ _ Hex)
                  (removelast_below k)) as Hqk.
    destruct (below_comparable d (c :: q) k Hk Hqk);
      [contradiction|assumption]. }
  destruct (lookup s k) as [[|f0]|]; cbn [snd];
    [apply confined_refl|exact Hw|exact Hw].
Qed.

Lemma zip_extract_member_confined (s : FS) (path : string) (m : ZipInfo) :
  isabs (cwd s) = true ->
  confined (norm_comps (absolute (cwd s) path)) s
    (snd (zip_extract_member path m s)).
Proof.
  intros Hcwd. unfold zip_extract_member, bind, get.
  assert (Hk : below (norm_comps (absolute (cwd s) path)) (zip_target s path m)).
  { rewrite zip_target_below by exact Hcwd. now eexists. }
  destruct (endswith_slash (zip_filename m)).
  - now apply make_dir_confined.
  - now apply write_file_confined.
Qed.

Lemma zip_extractall_confined (members : list ZipInfo) (s : FS) (path : string) :
  isabs (cwd s) = true ->
  confined (norm_comps (absolute (cwd s) path)) s
    (snd (zip_extractall members path s)).
Proof.
  unfold zip_extractall. revert s.
  induction members as [|m members IH]; intros s Hcwd; cbn [for_each].
  - apply confined_refl.
  - unfold bind at 1.
    pose proof (zip_extract_member_confined s path m Hcwd) as Hm.
    destruct (zip_extract_member path m s) as [[[]|e] s1]; cbn [snd] in *;
      [|exact Hm].
    apply (confined_trans _ _ s1); [exact Hm|].
    destruct Hm as [Hc _]. rewrite <- Hc. apply IH. now rewrite Hc.
Qed.

Lemma get_extracted_path_fuel_state (fuel : nat) (p : string) (s : FS) :
  snd (get_extracted_path_fuel fuel p s) = s.
Proof.
  revert p; induction fuel as [|fuel IH]; intros p; [reflexivity|].
  cbn [get_extracted_path_fuel]. unfold bind at 1.
  pose proof (get_subdirectories_state p s) as Hs.
  destruct (get_subdirectories p s) as [[l|e] s1]; cbn [snd] in Hs; subst s1;
    [|reflexivity].
  destruct l as [|x l]; [reflexivity|apply IH].
Qed.

Lemma get_extracted_path_state (p : string) (s : FS) :
  snd (get_extracted_path p s) = s.
Proof. unfold get_extracted_path, bind, get. apply get_extracted_path_fuel_state. Qed.

(** X12.  Staging a zip archive writes only inside the directory of the
    archive: whatever the names of the members, and whether or not the
    extraction fails on the way, nothing outside that directory is
    created, replaced or removed, except that missing ancestors of the
    directory are created. *)
Theorem zip_extraction_confined (s : FS) (src_file : string) (f : file)
  (members : list ZipInfo) :
  isabs (cwd s) = true ->
  stat_node s src_file = Some (File f) ->
  as_tar f = None ->
  as_zip f = Some members ->
  confined (norm_comps (absolute (cwd s) (dirname src_file))) s
    (snd (uncompress_file src_file s)).
Proof.
  intros Hcwd Hf Ht Hz.
  unfold uncompress_file, try_except, bind, gets.
  unfold isdir, is_tarfile, is_zipfile, zipfile_open.
  rewrite Hf. cbv beta iota delta [negb].
  rewrite Hf, Ht. cbv beta iota.
  rewrite Hf, Hz. cbv beta iota. rewrite Hf, Hz.
  pose proof (zip_extractall_confined members s (dirname src_file) Hcwd) as Hx.
  destruct (zip_extractall members (dirname src_file) s) as [[[]|e] s1];
    cbn [snd] in Hx.
  - pose proof (get_extracted_path_state (dirname src_file) s1) as Hg.
    destruct (get_extracted_path (dirname src_file) s1) as [[q|e] s2];
      cbn [snd] in Hg; subst s2.
    + exact Hx.
    + unfold ret. destruct (is_FileNotFoundError e); exact Hx.
  - destruct (is_FileNotFoundError e); exact Hx.
Qed.

Lemma zip_extraction_confined_witness :
  confined ["tmp"; "src"; "t1"] (samples.staged samples.zip_evil)
    (snd (uncompress_file samples.upload (samples.staged samples.zip_evil))).
Proof.
  apply (zip_extraction_confined (samples.staged samples.zip_evil)
           samples.upload samples.zip_evil [samples.zip_member "../../evil"]);
    reflexivity.
Defined.

End confinement.

Module tar_escape.
Import pystr posixpath fsys utils wf path_facts fs_facts staging path_more notions.

Lemma prefix_app (a b : string) : String.prefix a (a ++ b) = true.
Proof.
  induction a as [|c a IH]; cbn [append]; [now destruct b|].
  cbn [String.prefix]. now destruct (Ascii.ascii_dec c c).
Qed.

Lemma prefix_cancel (a b c : string) :
  String.prefix (a ++ b) (a ++ c) = String.prefix b c.
Proof.
  induction a as [|x a IH]; [reflexivity|].
  cbn [append String.prefix]. now destruct (Ascii.ascii_dec x x).
Qed.

Lemma prefix_cons (c : ascii) (a b : string) :
  String.prefix (String c a) (String c b) = String.prefix a b.
Proof. exact (prefix_cancel (String c "") a b). Qed.

Lemma join_cons (c : string) (cs : list string) :
  cs <> [] -> pystr.join (c :: cs) = c ++ String slash (pystr.join cs).
Proof. destruct cs; [congruence|reflexivity]. Qed.

Lemma join_prefix (ks : list string) (d x f : string) :
  String.prefix (pystr.join (ks ++ [d])) (pystr.join (ks ++ [(d ++ x)%string; f])) = true.
Proof.
  induction ks as [|k ks IH].
  - cbn [app pystr.join]. rewrite append_assoc. apply prefix_app.
  - cbn [app]. rewrite !join_cons by now destruct ks.
    now rewrite prefix_cancel, prefix_cons.
Qed.

Lemma initial_slashes_one (y rest : string) :
  proper_comp y = true -> initial_slashes (String slash (y ++ rest)) = 1.
Proof.
  intros Hy. destruct (proper_head y rest Hy) as [_ Hrel].
  unfold initial_slashes. rewrite startswith_cons.
  change (Ascii.eqb slash slash) with true. cbv iota.
  assert (H2 : startswith (String slash (y ++ rest)) "//" = false).
  { unfold startswith. change "//" with (String slash (String slash "")).
    rewrite prefix_cons. exact Hrel. }
  now rewrite H2.
Qed.

(** The normal form of an absolute path with one leading slash is the
    slash and its components. *)
Lemma normpath_comps (y rest : string) (cs : list string) :
  proper_comp y = true ->
  norm_comps (String slash (y ++ rest)) = cs ->
  normpath (String slash (y ++ rest)) = String slash (pystr.join cs).
Proof.
  intros Hy Hcs. unfold normpath. rewrite Hcs, (initial_slashes_one y rest Hy).
  reflexivity.
Qed.

Lemma norm_comps_rooted (cs : list string) :
  cs <> [] -> forallb good_comp cs = true ->
  norm_comps (String slash (pystr.join cs)) = cs.
Proof.
  intros Hne Hcs. unfold norm_comps. cbn [split].
  change (Ascii.eqb slash slash) with true. cbv iota. cbn [fold_left].
  rewrite norm_step_empty.
  rewrite split_join;
    [|exact Hne|now apply proper_no_slash, good_proper].
  now rewrite fold_goods.
Qed.

Lemma endswith_slash_app (a d : string) :
  (d =? "") = false -> endswith_slash (a ++ d) = endswith_slash d.
Proof.
  intros Hd. induction a as [|c a IH]; [reflexivity|].
  cbn [append endswith_slash]. rewrite IH.
  destruct (a ++ d) eqn:Had; [|reflexivity].
  destruct a; [cbn in Had; subst d; discriminate|discriminate].
Qed.

Lemma endswith_slash_no_slash (d : string) :
  has_slash d = false -> endswith_slash d = false.
Proof.
  induction d as [|c d IH]; [reflexivity|].
  cbn [has_slash endswith_slash]. intros H.
  apply orb_false_iff in H as [Hc Hd]. destruct d; [exact Hc|now apply IH].
Qed.

Lemma join_last (cs : list string) (d : string) :
  exists a, String slash (pystr.join (cs ++ [d])) = a ++ d.
Proof.
  induction cs as [|c cs [a IH]].
  - now exists "/".
  - cbn [app]. rewrite join_cons by now destruct cs.
    exists (String slash c ++ a). cbn [append].
    rewrite append_assoc. now rewrite <- IH.
Qed.

Lemma join_first (cs : list string) (d : string) :
  forallb good_comp cs = true -> good_comp d = true ->
  exists y rest, proper_comp y = true /\ pystr.join (cs ++ [d]) = y ++ rest.
Proof.
  intros Hcs Hd.
  assert (H : forallb proper_comp (cs ++ [d]) = true).
  { apply good_proper. now rewrite forallb_snoc, Hcs, Hd. }
  destruct (cs ++ [d])%list as [|y U] eqn:E; [now destruct cs|].
  cbn [forallb] in H. apply andb_true_iff in H as [Hy _].
  destruct (join_head y U) as [rest Hrest]. now exists y, rest.
Qed.


Lemma append_grows (d x : string) : (x =? "") = false -> d ++ x <> d.
Proof.
  intros Hx. induction d as [|c d IH]; cbn [append].
  - intros ->. discriminate.
  - intros [= H]. now apply IH.
Qed.

(** X18.  The guard of [safe_extract] compares strings, not path
    components.  For a destination [/k1/.../kn/d], a member named
    [../dx/f], where [dx] is the name [d] followed by more characters,
    passes the guard, although it is extracted to [/k1/.../kn/dx/f],
    in a sibling of the destination directory and not inside it. *)
Theorem tar_guard_admits_sibling (s : FS) (ks : list string) (d x f : string)
  (m : TarInfo) :
  forallb good_comp ks = true ->
  good_comp d = true ->
  good_comp (d ++ x) = true ->
  good_comp f = true ->
  (x =? "") = false ->
  tar_name m = pystr.join [".."; (d ++ x)%string; f] ->
  locate s (String slash (pystr.join (ks ++ [d]))) = Some (ks ++ [d])%list
  /\ is_within_directory (cwd s) (String slash (pystr.join (ks ++ [d])))
       (join (String slash (pystr.join (ks ++ [d]))) (tar_name m)) = true
  /\ tar_target s (String slash (pystr.join (ks ++ [d]))) m
     = (ks ++ [(d ++ x)%string; f])%list
  /\ ~ below (ks ++ [d])%list
         (tar_target s (String slash (pystr.join (ks ++ [d]))) m).
Proof.
  intros Hks Hd Hdx Hf Hx Hname.
  destruct (join_first ks d Hks Hd) as (y & rest & Hy & Hrest).
  assert (Hgood : forallb good_comp (ks ++ [d]) = true).
  { now rewrite forallb_snoc, Hks, Hd. }
  assert (Hgood' : forallb good_comp (ks ++ [(d ++ x)%string; f]) = true).
  { rewrite forallb_app, Hks. cbn. now rewrite Hdx, Hf. }
  pose proof (norm_comps_rooted (ks ++ [d])) as Hnc.
  specialize (Hnc ltac:(now destruct ks) Hgood).
  set (path := String slash (pystr.join (ks ++ [d]))) in *.
  set (tail := String slash (pystr.join [".."; (d ++ x)%string; f])).
  assert (Hjoin : join path (tar_name m) = path ++ tail).
  { assert (Hs : startswith (tar_name m) "/" = false) by now rewrite Hname.
    unfold join. rewrite Hs, Hname.
    destruct (join_last ks d) as [a Ha]. fold path in Ha.
    destruct (good_comp_inv _ Hd) as (Hd1 & _ & _ & Hd4).
    replace (endswith_slash path) with false.
    - reflexivity.
    - rewrite Ha, endswith_slash_app by exact Hd1.
      symmetry. now apply endswith_slash_no_slash. }
  assert (Habs1 : isabs path = true).
  { unfold isabs, path. now rewrite startswith_cons. }
  assert (Habs2 : isabs (path ++ tail) = true).
  { unfold isabs, path. cbn [append]. now rewrite startswith_cons. }
  assert (Hcomps : norm_comps (path ++ tail) = (ks ++ [(d ++ x)%string; f])%list).
  { unfold norm_comps in *. rewrite rooted_isabs in *.
    rewrite Habs2. rewrite Habs1 in Hnc.
    unfold tail. rewrite split_app_slash, fold_left_app, Hnc.
    destruct (good_comp_inv _ Hdx) as (_ & _ & _ & Hdx4).
    destruct (good_comp_inv _ Hf) as (_ & _ & _ & Hf4).
    rewrite split_join; [|discriminate|repeat constructor; assumption].
    cbn [fold_left].
    assert (Hup : norm_step true (ks ++ [d]) ".." = ks).
    { unfold norm_step. cbn [String.eqb Ascii.eqb Bool.eqb orb negb andb].
      rewrite last_is_dotdot_snoc.
      destruct (good_comp_inv _ Hd) as (_ & _ & -> & _).
      now rewrite removelast_last. }
    rewrite Hup, !norm_step_good by assumption.
    now rewrite <- app_assoc. }
  assert (Htarget : tar_target s path m = (ks ++ [(d ++ x)%string; f])%list).
  { unfold tar_target. rewrite Hjoin. unfold absolute.
    rewrite Habs2. exact Hcomps. }
  split; [|split; [|split]].
  - unfold locate, absolute. fold path. rewrite Habs1. now rewrite Hnc.
  - rewrite is_within_directory_prefix. unfold abspath, absolute.
    rewrite Hjoin.
    rewrite Habs1, Habs2.
    assert (Hp1 : normpath path = String slash (pystr.join (ks ++ [d]))).
    { unfold path. rewrite Hrest at 1.
      apply normpath_comps; [exact Hy|]. rewrite <- Hrest. exact Hnc. }
    assert (Hp2 : normpath (path ++ tail)
                  = String slash (pystr.join (ks ++ [(d ++ x)%string; f]))).
    { unfold path. cbn [append]. rewrite Hrest at 1. rewrite append_assoc.
      apply normpath_comps; [exact Hy|].
      rewrite <- append_assoc, <- Hrest. exact Hcomps. }
    rewrite Hp1, Hp2, prefix_cons. apply join_prefix.
  - exact Htarget.
  - rewrite Htarget. intros [suf Hsuf].
    rewrite <- app_assoc in Hsuf. apply app_inv_head in Hsuf.
    cbn [app] in Hsuf. injection Hsuf as Hdx' _.
    now apply (append_grows d x Hx).
Qed.

Lemma tar_guard_admits_sibling_witness :
  locate (samples.staged samples.tar_evil) "/tmp/src/t1"
  = Some ["tmp"; "src"; "t1"]
  /\ is_within_directory "/srv" "/tmp/src/t1"
       (join "/tmp/src/t1" "../t10/evil") = true
  /\ tar_target (samples.staged samples.tar_evil) "/tmp/src/t1"
       (samples.tar_member "../t10/evil")
     = ["tmp"; "src"; "t10"; "evil"]
  /\ ~ below ["tmp"; "src"; "t1"]
         (tar_target (samples.staged samples.tar_evil) "/tmp/src/t1"
            (samples.tar_member "../t10/evil")).
Proof.
  apply (tar_guard_admits_sibling (samples.staged samples.tar_evil)
           ["tmp"; "src"] "t1" "0" "evil" (samples.tar_member "../t10/evil"));
    reflexivity.
Defined.

End tar_escape.
